(** * Mesh creation utilities ([tensorflow/dtensor/python/mesh_util.py])

    A shallow embedding of [create_mesh] and [create_distributed_mesh].

    Python integers are unbounded, so they are [Z]; [//] and [%] are
    [Z.div] and [Z.modulo] (both round towards minus infinity, like
    Python's).  Strings are [string]; the only string operation the module
    uses is [str.upper], which matters here only through comparisons with
    the ASCII words CPU, GPU and TPU.  Exceptions are values of [exn] and
    fallible code returns [result].  The one object the module mutates, the
    caller's [mesh_dims] list, is threaded through [create_mesh] as state. *)

From Stdlib Require Import ZArith List String Ascii Bool Lia FinFun.
Import ListNotations.
Local Open Scope string_scope.
Local Open Scope list_scope.
Local Open Scope Z_scope.

Set Implicit Arguments.

(** ** Exceptions *)

(** [tf.DeviceSpec]; a spec string may leave the device part out. *)
Record DeviceSpec := {
  spec_device_type : option string;
  spec_device_index : option Z
}.

(** Which of the three cluster coordinates a TPU call supplied. *)
Inductive tpu_arg := Arg_num_global_devices | Arg_num_clients | Arg_client_id.

(** The [ValueError]s, one constructor per [raise] site (the message's
    interpolated values are the constructor's arguments), plus the ones
    [ndarray.reshape] raises and whatever the runtime's parsers raise. *)
Inductive value_error :=
| Conflicting_devices (devices : list DeviceSpec) (device_type : string)
| Num_global_devices_not_positive (num_global_devices : Z)
| Num_clients_not_positive (num_clients : Z)
| Client_id_negative (client_id : Z)
| Client_id_too_large (client_id num_clients : Z)
| Not_divisible (num_global_devices num_clients : Z)
| Not_enough_devices (num_local_devices num_available_devices : Z)
| Do_not_specify (arg : tpu_arg) (device_type : string)
| Not_cpu_gpu_tpu (device_type : string)
| Cannot_reshape (size : Z) (shape : list Z)
| One_unknown_dimension
| Other_value_error (msg : string).

Inductive exn :=
| ValueError (v : value_error)
| IndexError
| AttributeError.

Inductive result (A : Type) :=
| Ok (a : A)
| Raise (e : exn).
Arguments Ok {A} a.
Arguments Raise {A} e.

Definition bind {A B} (r : result A) (k : A -> result B) : result B :=
  match r with
  | Ok a => k a
  | Raise e => Raise e
  end.

Notation "x <- r ;; k" := (bind r (fun x => k))
  (at level 61, r at next level, right associativity).
Notation "' p <- r ;; k" := (bind r (fun x => let p := x in k))
  (at level 61, p pattern, r at next level, right associativity).

(** A list comprehension whose element expression may raise. *)
Fixpoint mapM {A B} (f : A -> result B) (l : list A) : result (list B) :=
  match l with
  | [] => Ok []
  | a :: l' => b <- f a;; bs <- mapM f l';; Ok (b :: bs)
  end.


Definition returns {A} (r : result A) : Prop :=
  exists a, r = Ok a.

(** ** Python built-ins *)

Definition upper_ascii (c : ascii) : ascii :=
  let n := nat_of_ascii c in
  if (Nat.leb 97 n && Nat.leb n 122)%bool then ascii_of_nat (n - 32) else c.

(** [str.upper] *)
Fixpoint upper (s : string) : string :=
  match s with
  | EmptyString => EmptyString
  | String c s' => String (upper_ascii c) (upper s')
  end.

(** [s in l] for a list of strings. *)
Definition str_in (s : string) (l : list string) : bool :=
  existsb (String.eqb s) l.

(** [len] *)
Definition len {A} (l : list A) : Z := Z.of_nat (List.length l).

(** How a slice bound is clipped to a sequence of length [n]. *)
Definition slice_bound (n i : Z) : Z :=
  if i <? 0 then Z.max 0 (i + n) else Z.min i n.

(** [l[start:stop]] *)
Definition py_slice {A} (l : list A) (start stop : Z) : list A :=
  let s := slice_bound (len l) start in
  let e := slice_bound (len l) stop in
  firstn (Z.to_nat (e - s)) (skipn (Z.to_nat s) l).

(** [l[0]] *)
Definition item0 {A} (l : list A) : result A :=
  match l with
  | [] => Raise IndexError
  | a :: _ => Ok a
  end.

(** [list(range(n))] *)
Definition range (n : Z) : list Z := map Z.of_nat (seq 0 (Z.to_nat n)).

(** The [k] consecutive integers from [a]. *)
Definition range_from (a k : Z) : list Z := map (Z.add a) (range k).

(** ** NumPy arrays of integers

    An array is its shape and its elements in row-major order. *)
Module np.

Record ndarray := { shape : list Z; data : list Z }.

Definition size (a : ndarray) : Z := len (data a).
Definition ndim (a : ndarray) : nat := List.length (shape a).

Definition prod (l : list Z) : Z := fold_right Z.mul 1 l.

(** [np.arange(n)] *)
Definition arange (n : Z) : ndarray :=
  {| shape := [Z.max 0 n]; data := range n |}.

(** Product of the given (non-negative) entries of a requested shape. *)
Definition known_size (newshape : list Z) : Z :=
  prod (filter (fun d => 0 <=? d) newshape).

Definition unknowns (newshape : list Z) : nat :=
  List.length (filter (fun d => d <? 0) newshape).

(** The shape [reshape] settles on: at most one entry may be negative (the
    documented spelling is -1) and stands for whatever makes the sizes
    agree; otherwise the product of the entries must be the array's size. *)
Definition fix_unknown_dimension (newshape : list Z) (s_original : Z)
  : result (list Z) :=
  let s_known := known_size newshape in
  match unknowns newshape with
  | O =>
      if s_original =? s_known then Ok newshape
      else Raise (ValueError (Cannot_reshape s_original newshape))
  | S O =>
      if ((s_known =? 0) || negb (s_original mod s_known =? 0))%bool
      then Raise (ValueError (Cannot_reshape s_original newshape))
      else Ok (map (fun d => if d <? 0 then s_original / s_known else d)
                 newshape)
  | _ => Raise (ValueError One_unknown_dimension)
  end.

(** [a.reshape(newshape)] *)
Definition reshape (a : ndarray) (newshape : list Z) : result ndarray :=
  s <- fix_unknown_dimension newshape (size a);;
  Ok {| shape := s; data := data a |}.

(** [np.ravel(a)] *)
Definition ravel (a : ndarray) : ndarray :=
  {| shape := [size a]; data := data a |}.

(** [a.tolist()] of a one-dimensional array. *)
Definition tolist (a : ndarray) : list Z := data a.

End np.

(** ** What the module imports from the rest of TensorFlow *)

(** [tf.config.LogicalDevice] *)
Record LogicalDevice := {
  name : string;
  logical_device_type : string
}.

(** Modelled from the spec: the mesh descriptor [dtensor.Mesh], whose class
    is outside this file: the dimension names, the grid of global device
    ids, the ids local to this client and the devices behind them (the
    keyword arguments of the constructor). *)
Record Mesh := {
  dim_names : list string;
  global_device_ids : np.ndarray;
  local_device_ids : list Z;
  local_devices : list DeviceSpec;
  mesh_name : string
}.

(** The dimension sizes of a mesh are the shape of its grid of ids. *)
Definition dim_sizes (m : Mesh) : list Z := np.shape (global_device_ids m).

(** The functions of the DTensor runtime and of TensorFlow's device
    configuration that the module calls; their code is outside this file,
    so they are taken as given. *)
Record Runtime := {
  tf_config_list_logical_devices : string -> list LogicalDevice;
  DeviceSpec_from_string : string -> result DeviceSpec;
  dtensor_num_global_devices : string -> Z;
  dtensor_num_clients : Z;
  dtensor_client_id : Z;
  dtensor_num_local_devices : string -> Z;
  dtensor_local_devices : string -> Z -> list DeviceSpec;
  dtensor_Mesh_validate : Mesh -> result unit;
  tpu_util_create_tpu_mesh : list string -> list Z -> string -> result Mesh
}.

(** [dtensor.Mesh(...)]: the constructor keeps its arguments, unless its own
    checks ([dtensor_Mesh_validate], outside this file) reject them. *)
Definition dtensor_Mesh (rt : Runtime) (dim_names : list string)
  (global_device_ids : np.ndarray) (local_device_ids : list Z)
  (local_devices : list DeviceSpec) (mesh_name : string) : result Mesh :=
  let mesh := {| dim_names := dim_names;
                 global_device_ids := global_device_ids;
                 local_device_ids := local_device_ids;
                 local_devices := local_devices;
                 mesh_name := mesh_name |} in
  _ <- dtensor_Mesh_validate rt mesh;;
  Ok mesh.

(** Using as a [str] a value that may be [None]: calling a method on [None]
    is an [AttributeError]. *)
Definition as_str (x : option string) : result string :=
  match x with
  | Some s => Ok s
  | None => Raise AttributeError
  end.

(** [x.upper()] where [x] may be [None]. *)
Definition upper_opt (x : option string) : result string :=
  s <- as_str x;;
  Ok (upper s).

(** [x if x is not None else d] *)
Definition if_none (x : option Z) (d : Z) : Z :=
  match x with
  | Some v => v
  | None => d
  end.

(** ** The module *)

(** [_print_context] only logs; what can fail in it is [device_type.upper()]
    when the device type it is handed is [None]. *)
Definition _print_context (num_global_devices num_clients client_id : Z)
  (device_type : option string) (mesh : Mesh) : result unit :=
  _ <- upper_opt device_type;;
  Ok tt.

(** The list comprehension of lines 71-74: the explicit devices, parsed. *)
Definition parse_devices (rt : Runtime) (devices : list string)
  : result (list DeviceSpec) :=
  mapM (fun d => DeviceSpec_from_string rt
                   (String.append "/job:localhost/replica:0/task:0/" d))
    devices.

(** Lines 63-79 of [create_mesh]: the devices to use. *)
Definition resolve_devices (rt : Runtime) (devices : option (list string))
  (device_type : option string) : result (list DeviceSpec) :=
  match devices with
  | None =>
      let device_type :=
        match device_type with None => "CPU" | Some t => t end in
      mapM (fun d => DeviceSpec_from_string rt (name d))
        (tf_config_list_logical_devices rt device_type)
  | Some devices =>
      devices <- parse_devices rt devices;;
      device_type <- match device_type with
                     | None => d0 <- item0 devices;; Ok (spec_device_type d0)
                     | Some t => Ok (Some t)
                     end;;
      device_type <- as_str device_type;;
      d0 <- item0 devices;;
      inferred <- upper_opt (spec_device_type d0);;
      if negb (upper device_type =? inferred)%string
      then Raise (ValueError (Conflicting_devices devices device_type))
      else Ok devices
  end.

(** Lines 80-84 of [create_mesh].  The first component is the caller's
    list object after these lines ([None] when the caller passed [None]),
    the second the value of the local variable [mesh_dims]; after the
    assignment to [mesh_dims[0]] the two are the same object. *)
Definition fill_mesh_dims (mesh_dims : option (list (string * Z)))
  (devices : list DeviceSpec)
  : option (list (string * Z)) * list (string * Z) :=
  match mesh_dims with
  | None => (None, [("x", len devices)])
  | Some [(dim_name, dim_size)] =>
      if dim_size =? -1
      then let mesh_dims := [(dim_name, len devices)] in
           (Some mesh_dims, mesh_dims)
      else (mesh_dims, [(dim_name, dim_size)])
  | Some l => (mesh_dims, l)
  end.

(** Lines 86-102 of [create_mesh]. *)
Definition build_mesh (rt : Runtime) (mesh_dims : list (string * Z))
  (mesh_name : string) (devices : list DeviceSpec) : result Mesh :=
  let dim_names := map fst mesh_dims in
  let shape := map snd mesh_dims in
  global_device_ids <- np.reshape (np.arange (len devices)) shape;;
  let local_device_ids := np.tolist (np.ravel global_device_ids) in
  mesh <- dtensor_Mesh rt dim_names global_device_ids local_device_ids
            devices mesh_name;;
  d0 <- item0 devices;;
  _ <- _print_context (len devices) 1 0 (spec_device_type d0) mesh;;
  Ok mesh.

(** [create_mesh]: the caller's [mesh_dims] object when the call ends
    (by return or by exception), and the outcome of the call. *)
Definition create_mesh (rt : Runtime)
  (mesh_dims : option (list (string * Z))) (mesh_name : string)
  (devices : option (list string)) (device_type : option string)
  : option (list (string * Z)) * result Mesh :=
  match resolve_devices rt devices device_type with
  | Raise e => (mesh_dims, Raise e)
  | Ok devices =>
      let '(caller_mesh_dims, mesh_dims) := fill_mesh_dims mesh_dims devices in
      (caller_mesh_dims, build_mesh rt mesh_dims mesh_name devices)
  end.

(** [create_distributed_mesh] *)
Definition create_distributed_mesh (rt : Runtime)
  (mesh_dims : list (string * Z)) (mesh_name : string)
  (num_global_devices num_clients client_id : option Z)
  (device_type : string) : result Mesh :=
  if str_in (upper device_type) ["CPU"; "GPU"] then
    let num_global_devices :=
      if_none num_global_devices (dtensor_num_global_devices rt device_type) in
    if num_global_devices <=? 0 then
      Raise (ValueError (Num_global_devices_not_positive num_global_devices))
    else
    let num_clients := if_none num_clients (dtensor_num_clients rt) in
    if num_clients <=? 0 then
      Raise (ValueError (Num_clients_not_positive num_clients))
    else
    let client_id := if_none client_id (dtensor_client_id rt) in
    if client_id <? 0 then
      Raise (ValueError (Client_id_negative client_id))
    else if client_id >=? num_clients then
      Raise (ValueError (Client_id_too_large client_id num_clients))
    else
    if negb (num_global_devices mod num_clients =? 0) then
      Raise (ValueError (Not_divisible num_global_devices num_clients))
    else
    let num_local_devices := num_global_devices / num_clients in
    let num_available_devices := dtensor_num_local_devices rt device_type in
    if num_local_devices >? num_available_devices then
      Raise (ValueError (Not_enough_devices num_local_devices
                           num_available_devices))
    else
    let local_devices :=
      py_slice (dtensor_local_devices rt device_type client_id)
        0 num_local_devices in
    let dim_names := map fst mesh_dims in
    let shape := map snd mesh_dims in
    global_device_ids <- np.reshape (np.arange num_global_devices) shape;;
    let flattened := np.tolist (np.ravel global_device_ids) in
    let start_idx := num_local_devices * client_id in
    let local_device_ids :=
      py_slice flattened start_idx (start_idx + num_local_devices) in
    mesh <- dtensor_Mesh rt dim_names global_device_ids local_device_ids
              local_devices mesh_name;;
    _ <- _print_context num_global_devices num_clients client_id
           (Some device_type) mesh;;
    Ok mesh
  else if (upper device_type =? "TPU")%string then
    match num_global_devices, num_clients, client_id with
    | Some _, _, _ =>
        Raise (ValueError (Do_not_specify Arg_num_global_devices
                             (upper device_type)))
    | None, Some _, _ =>
        Raise (ValueError (Do_not_specify Arg_num_clients (upper device_type)))
    | None, None, Some _ =>
        Raise (ValueError (Do_not_specify Arg_client_id (upper device_type)))
    | None, None, None =>
        let dim_names := map fst mesh_dims in
        let shape := map snd mesh_dims in
        mesh <- tpu_util_create_tpu_mesh rt dim_names shape mesh_name;;
        _ <- _print_context (dtensor_num_global_devices rt device_type)
               (dtensor_num_clients rt) (dtensor_client_id rt)
               (Some device_type) mesh;;
        Ok mesh
    end
  else Raise (ValueError (Not_cpu_gpu_tpu device_type)).

(** ** Vocabulary of the statements *)

(** The device type selects the CPU and GPU branch (line 136). *)
Definition is_cpu_gpu (device_type : string) : Prop :=
  str_in (upper device_type) ["CPU"; "GPU"] = true.

(** The five checks on the cluster coordinates (lines 142-159). *)
Definition coordinates_ok (n c i : Z) : Prop :=
  0 < n /\ 0 < c /\ 0 <= i < c /\ n mod c = 0.

(** The mesh the CPU and GPU branch asks the constructor for, for client
    [i], once the grid [g] is built (lines 160-183). *)
Definition client_mesh (rt : Runtime) (mesh_dims : list (string * Z))
  (mesh_name : string) (num_global_devices num_clients : option Z)
  (device_type : string) (g : np.ndarray) (i : Z) : Mesh :=
  let n :=
    if_none num_global_devices (dtensor_num_global_devices rt device_type) in
  let c := if_none num_clients (dtensor_num_clients rt) in
  let k := n / c in
  Build_Mesh (map fst mesh_dims) g
    (py_slice (np.data g) (k * i) (k * i + k))
    (py_slice (dtensor_local_devices rt device_type i) 0 k)
    mesh_name.

(** ** A sample host

    Two logical CPUs and two logical GPUs, in a cluster of two clients of
    which this one is client 0.  [sample_from_string] knows the spec strings
    of these devices, with or without the job prefix. *)

Definition device (t : string) (i : Z) : DeviceSpec :=
  {| spec_device_type := Some t; spec_device_index := Some i |}.

Definition sample_specs : list (string * DeviceSpec) :=
  [ ("/device:CPU:0", device "CPU" 0);
    ("/device:CPU:1", device "CPU" 1);
    ("/device:GPU:0", device "GPU" 0);
    ("/device:GPU:1", device "GPU" 1);
    ("/job:localhost/replica:0/task:0/CPU:0", device "CPU" 0);
    ("/job:localhost/replica:0/task:0/CPU:1", device "CPU" 1);
    ("/job:localhost/replica:0/task:0/GPU:0", device "GPU" 0);
    ("/job:localhost/replica:0/task:0/GPU:1", device "GPU" 1) ].

Fixpoint lookup_spec (table : list (string * DeviceSpec)) (s : string)
  : result DeviceSpec :=
  match table with
  | [] => Raise (ValueError (Other_value_error s))
  | (k, d) :: table' => if (k =? s)%string then Ok d else lookup_spec table' s
  end.

Definition sample_from_string : string -> result DeviceSpec :=
  lookup_spec sample_specs.

Definition sample_logical_devices (device_type : string)
  : list LogicalDevice :=
  filter (fun d => (logical_device_type d =? upper device_type)%string)
    [ {| name := "/device:CPU:0"; logical_device_type := "CPU" |};
      {| name := "/device:CPU:1"; logical_device_type := "CPU" |};
      {| name := "/device:GPU:0"; logical_device_type := "GPU" |};
      {| name := "/device:GPU:1"; logical_device_type := "GPU" |} ].

Definition sample_runtime : Runtime :=
  {| tf_config_list_logical_devices := sample_logical_devices;
     DeviceSpec_from_string := sample_from_string;
     dtensor_num_global_devices := fun _ => 4;
     dtensor_num_clients := 2;
     dtensor_client_id := 0;
     dtensor_num_local_devices := fun _ => 2;
     dtensor_local_devices := fun t _ => [device (upper t) 0; device (upper t) 1];
     dtensor_Mesh_validate := fun _ => Ok tt;
     tpu_util_create_tpu_mesh := fun _ _ _ =>
       Raise (ValueError (Other_value_error "no TPU system")) |}.

(** A host on which no logical device is visible. *)
Definition bare_runtime : Runtime :=
  {| tf_config_list_logical_devices := fun _ => [];
     DeviceSpec_from_string := sample_from_string;
     dtensor_num_global_devices := fun _ => 0;
     dtensor_num_clients := 1;
     dtensor_client_id := 0;
     dtensor_num_local_devices := fun _ => 0;
     dtensor_local_devices := fun _ _ => [];
     dtensor_Mesh_validate := fun _ => Ok tt;
     tpu_util_create_tpu_mesh := fun _ _ _ =>
       Raise (ValueError (Other_value_error "no TPU system")) |}.

(** A host of a TPU pod: the topology resolver lays the dimension sizes it
    is given over the cores it has found, all of them remote here. *)
Definition sample_create_tpu_mesh (dim_names : list string) (shape : list Z)
  (mesh_name : string) : result Mesh :=
  let num_cores := np.prod shape in
  Ok (Build_Mesh dim_names
        {| np.shape := shape; np.data := range num_cores |}
        (range num_cores) [] mesh_name).

Definition tpu_runtime : Runtime :=
  {| tf_config_list_logical_devices := fun _ => [];
     DeviceSpec_from_string := fun s => Raise (ValueError (Other_value_error s));
     dtensor_num_global_devices := fun _ => 8;
     dtensor_num_clients := 2;
     dtensor_client_id := 0;
     dtensor_num_local_devices := fun _ => 4;
     dtensor_local_devices := fun _ _ => [];
     dtensor_Mesh_validate := fun _ => Ok tt;
     tpu_util_create_tpu_mesh := sample_create_tpu_mesh |}.

(** The sample host under other environment variables: a cluster of four
    clients and sixteen devices, of which this is client 3. *)
Definition sample_runtime_other_env : Runtime :=
  {| tf_config_list_logical_devices := sample_logical_devices;
     DeviceSpec_from_string := sample_from_string;
     dtensor_num_global_devices := fun _ => 16;
     dtensor_num_clients := 4;
     dtensor_client_id := 3;
     dtensor_num_local_devices := fun _ => 2;
     dtensor_local_devices := fun t _ => [device (upper t) 0; device (upper t) 1];
     dtensor_Mesh_validate := fun _ => Ok tt;
     tpu_util_create_tpu_mesh := fun _ _ _ =>
       Raise (ValueError (Other_value_error "no TPU system")) |}.




(** The mesh of client 1 on the sample host: a 2 x 2 CPU mesh over the four
    devices of the cluster. *)
Definition sample_grid : np.ndarray :=
  {| np.shape := [2; 2]; np.data := [0; 1; 2; 3] |}.

Definition sample_client_mesh : Mesh :=
  client_mesh sample_runtime [("x", 2); ("y", 2)] "" None None "cpu"
    sample_grid 1.

(** * Properties *)

(** ** Ranges and slices *)

Section Ranges.

Lemma len_range (n : Z) : len (range n) = Z.max 0 n.
Proof.
  unfold len, range. rewrite length_map, length_seq. lia.
Qed.

Lemma range_succ (m : nat) :
  range (Z.of_nat (S m)) = range (Z.of_nat m) ++ [Z.of_nat m].
Proof.
  unfold range. rewrite !Nat2Z.id, seq_S, map_app. reflexivity.
Qed.

Lemma map_add_seq (a : Z) (k s : nat) :
  0 <= a ->
  map (fun x => a + Z.of_nat x) (seq s k)
  = map Z.of_nat (seq (Z.to_nat a + s) k).
Proof.
  intros Ha. revert s.
  induction k as [|k IH]; intros s; simpl; [reflexivity|].
  f_equal; [lia|].
  rewrite IH. f_equal. f_equal. lia.
Qed.

Lemma range_from_seq (a k : Z) :
  0 <= a ->
  range_from a k = map Z.of_nat (seq (Z.to_nat a) (Z.to_nat k)).
Proof.
  intros Ha. unfold range_from, range. rewrite map_map.
  rewrite map_add_seq by assumption. now rewrite Nat.add_0_r.
Qed.

Lemma range_from_0 (n : Z) : range_from 0 n = range n.
Proof.
  unfold range_from. rewrite <- (map_id (range n)) at 2.
  apply map_ext. intros; lia.
Qed.

Lemma in_range_from (a k x : Z) :
  In x (range_from a k) <-> a <= x < a + k.
Proof.
  unfold range_from, range. rewrite map_map, in_map_iff. split.
  - intros [i [<- Hi]]. apply in_seq in Hi. lia.
  - intros H. exists (Z.to_nat (x - a)). split; [lia|].
    apply in_seq. lia.
Qed.

Lemma len_range_from (a k : Z) : len (range_from a k) = Z.max 0 k.
Proof.
  unfold range_from, len. rewrite length_map. apply len_range.
Qed.

Lemma NoDup_range (n : Z) : NoDup (range n).
Proof.
  unfold range. apply Injective_map_NoDup.
  - intros x y. apply Nat2Z.inj.
  - apply seq_NoDup.
Qed.

Lemma range_from_app (a k1 k2 : Z) :
  0 <= a -> 0 <= k1 -> 0 <= k2 ->
  range_from a k1 ++ range_from (a + k1) k2 = range_from a (k1 + k2).
Proof.
  intros Ha H1 H2. rewrite !range_from_seq by lia.
  rewrite <- map_app. f_equal.
  replace (Z.to_nat (k1 + k2)) with (Z.to_nat k1 + Z.to_nat k2)%nat by lia.
  rewrite seq_app. do 2 f_equal. lia.
Qed.

Lemma firstn_seq_min (k s l : nat) :
  firstn k (seq s l) = seq s (Nat.min k l).
Proof.
  revert s l. induction k as [|k IH]; intros s [|l]; simpl; try reflexivity.
  now rewrite IH.
Qed.

(** A slice of [range n] that stays inside it is a run of consecutive
    integers. *)
Lemma py_slice_range (n a k : Z) :
  0 <= a -> 0 <= k -> a + k <= n ->
  py_slice (range n) a (a + k) = range_from a k.
Proof.
  intros Ha Hk Hn. unfold py_slice. rewrite len_range.
  unfold slice_bound.
  destruct (Z.ltb_spec a 0) as [?|_]; [lia|].
  destruct (Z.ltb_spec (a + k) 0) as [?|_]; [lia|].
  rewrite range_from_seq by assumption.
  unfold range. rewrite skipn_map, firstn_map, skipn_seq, firstn_seq_min.
  do 2 f_equal; lia.
Qed.

(** Cutting [range (k * c)] into [c] runs of length [k] loses nothing. *)
Lemma concat_range_from (k : Z) (m : nat) :
  0 <= k ->
  List.concat (map (fun j => range_from (k * j) k) (range (Z.of_nat m)))
  = range (k * Z.of_nat m).
Proof.
  intros Hk. induction m as [|m IH].
  - rewrite Z.mul_0_r. reflexivity.
  - rewrite range_succ, map_app, concat_app, IH. simpl.
    rewrite app_nil_r, <- !range_from_0.
    replace (k * Z.of_nat m) with (0 + k * Z.of_nat m) at 2 by lia.
    rewrite range_from_app by lia. f_equal. lia.
Qed.

End Ranges.

(** ** Reshaping *)

Section Reshape.

Let fill (q : Z) := fun d : Z => if d <? 0 then q else d.

Lemma prod_fill (q : Z) (s : list Z) :
  np.prod (map (fill q) s)
  = q ^ Z.of_nat (np.unknowns s) * np.known_size s.
Proof.
  unfold np.unknowns, np.known_size, fill.
  induction s as [|d s IH]; [reflexivity|]. simpl map. simpl filter.
  destruct (Z.ltb_spec d 0) as [Hd|Hd];
    destruct (Z.leb_spec 0 d) as [Hd'|Hd']; try lia.
  - simpl List.length. rewrite Nat2Z.inj_succ, Z.pow_succ_r by lia.
    simpl np.prod. rewrite IH. ring.
  - simpl np.prod. rewrite IH. ring.
Qed.

Lemma known_size_all (s : list Z) :
  np.unknowns s = O -> np.known_size s = np.prod s.
Proof.
  unfold np.unknowns, np.known_size.
  induction s as [|d s IH]; [reflexivity|]. simpl filter.
  destruct (Z.ltb_spec d 0) as [Hd|Hd];
    destruct (Z.leb_spec 0 d) as [Hd'|Hd']; try lia; simpl.
  - discriminate.
  - intros H. now rewrite IH.
Qed.

(** The shape [reshape] settles on has as many entries as the requested
    one, and their product is the size of the array. *)
Lemma fix_unknown_dimension_prod (s s' : list Z) (n : Z) :
  np.fix_unknown_dimension s n = Ok s' ->
  np.prod s' = n /\ List.length s' = List.length s.
Proof.
  unfold np.fix_unknown_dimension.
  destruct (np.unknowns s) as [|[|u]] eqn:Hu.
  - destruct (Z.eqb_spec n (np.known_size s)) as [E|E]; [|discriminate].
    intros [= <-]. split; [|reflexivity].
    rewrite <- known_size_all by assumption. now symmetry.
  - destruct (Z.eqb_spec (np.known_size s) 0) as [E0|E0]; [discriminate|].
    destruct (Z.eqb_spec (n mod np.known_size s) 0) as [Em|Em];
      [|discriminate].
    simpl. intros [= <-]. split; [|apply length_map].
    change (fun d : Z => if d <? 0 then n / np.known_size s else d)
      with (fill (n / np.known_size s)).
    rewrite prod_fill, Hu, Z.pow_1_r.
    apply Z.div_exact in Em; [lia|assumption].
  - discriminate.
Qed.

Lemma reshape_inv (a g : np.ndarray) (s : list Z) :
  np.reshape a s = Ok g ->
  np.data g = np.data a /\
  np.prod (np.shape g) = np.size a /\
  np.ndim g = List.length s /\
  np.fix_unknown_dimension s (np.size a) = Ok (np.shape g).
Proof.
  unfold np.reshape, bind.
  destruct (np.fix_unknown_dimension s (np.size a)) as [s'|e] eqn:E;
    [|discriminate].
  intros [= <-]. simpl. apply fix_unknown_dimension_prod in E as [E1 E2].
  unfold np.ndim. simpl. auto.
Qed.

Lemma size_arange (n : Z) : np.size (np.arange n) = Z.max 0 n.
Proof. apply len_range. Qed.

(** A shape whose entries are all given and multiply to the size is
    accepted as it is. *)
Lemma reshape_exact (a : np.ndarray) (s : list Z) :
  np.unknowns s = O -> np.prod s = np.size a ->
  np.reshape a s = Ok {| np.shape := s; np.data := np.data a |}.
Proof.
  intros Hu Hp. unfold np.reshape, np.fix_unknown_dimension.
  rewrite Hu, known_size_all, Hp, Z.eqb_refl by assumption. reflexivity.
Qed.

End Reshape.

(** ** The CPU and GPU branch of [create_distributed_mesh] *)

Lemma coordinates_ok_dec (n c i : Z) :
  {coordinates_ok n c i} + {~ coordinates_ok n c i}.
Proof.
  unfold coordinates_ok.
  destruct (Z_lt_dec 0 n); [|right; tauto].
  destruct (Z_lt_dec 0 c); [|right; tauto].
  destruct (Z_le_dec 0 i); [|right; tauto].
  destruct (Z_lt_dec i c); [|right; tauto].
  destruct (Z.eq_dec (n mod c) 0); [left|right]; tauto.
Qed.

Ltac cmp_cases :=
  repeat match goal with
    | |- context [?a <=? ?b] => destruct (Z.leb_spec a b)
    | |- context [?a <? ?b] => destruct (Z.ltb_spec a b)
    | |- context [?a =? ?b] => destruct (Z.eqb_spec a b)
    | H : context [?a <=? ?b] |- _ => destruct (Z.leb_spec a b)
    | H : context [?a <? ?b] |- _ => destruct (Z.ltb_spec a b)
    | H : context [?a =? ?b] |- _ => destruct (Z.eqb_spec a b)
    end.

Section Distributed.

Variable rt : Runtime.
Variable mesh_dims : list (string * Z).
Variable mesh_name : string.
Variables num_global_devices num_clients : option Z.
Variable device_type : string.

Let n := if_none num_global_devices (dtensor_num_global_devices rt device_type).
Let c := if_none num_clients (dtensor_num_clients rt).
Let k := n / c.
Let available := dtensor_num_local_devices rt device_type.

Let client_mesh_of :=
  client_mesh rt mesh_dims mesh_name num_global_devices num_clients
    device_type.

(** Once the checks on the coordinates have passed, the call is the three
    remaining steps. *)
Lemma create_distributed_mesh_checked (client_id : option Z) :
  is_cpu_gpu device_type ->
  let i := if_none client_id (dtensor_client_id rt) in
  coordinates_ok n c i ->
  create_distributed_mesh rt mesh_dims mesh_name num_global_devices
    num_clients client_id device_type
  = if k >? available
    then Raise (ValueError (Not_enough_devices k available))
    else g <- np.reshape (np.arange n) (map snd mesh_dims);;
         _ <- dtensor_Mesh_validate rt (client_mesh_of g i);;
         Ok (client_mesh_of g i).
Proof.
  intros Hdt i (Hn & Hc & Hi & Hm).
  unfold create_distributed_mesh. unfold is_cpu_gpu in Hdt. rewrite Hdt.
  fold n c i. rewrite Z.geb_leb.
  cmp_cases; try lia. simpl negb. cbv iota. fold k available.
  destruct (k >? available); [reflexivity|].
  destruct (np.reshape (np.arange n) (map snd mesh_dims)) as [g|err];
    [|reflexivity].
  simpl. unfold dtensor_Mesh, client_mesh_of, client_mesh. fold n c k.
  destruct (dtensor_Mesh_validate rt _) as [[]|err]; reflexivity.
Qed.

(** A failed check on the coordinates is a [ValueError] of that check. *)
Lemma create_distributed_mesh_unchecked (client_id : option Z) :
  is_cpu_gpu device_type ->
  let i := if_none client_id (dtensor_client_id rt) in
  ~ coordinates_ok n c i ->
  exists v,
    create_distributed_mesh rt mesh_dims mesh_name num_global_devices
      num_clients client_id device_type = Raise (ValueError v) /\
    In v [Num_global_devices_not_positive n; Num_clients_not_positive c;
          Client_id_negative i; Client_id_too_large i c; Not_divisible n c].
Proof.
  intros Hdt i Hbad.
  unfold create_distributed_mesh. unfold is_cpu_gpu in Hdt. rewrite Hdt.
  fold n c i. rewrite Z.geb_leb. unfold coordinates_ok in Hbad.
  cmp_cases; try lia; simpl negb; cbv iota;
    eexists; (split; [reflexivity|]); simpl; tauto.
Qed.

(** What a call that returns a mesh has gone through. *)
Lemma create_distributed_mesh_returns (client_id : option Z) (mesh : Mesh) :
  is_cpu_gpu device_type ->
  create_distributed_mesh rt mesh_dims mesh_name num_global_devices
    num_clients client_id device_type = Ok mesh ->
  let i := if_none client_id (dtensor_client_id rt) in
  coordinates_ok n c i /\ k <= available /\
  exists g, np.reshape (np.arange n) (map snd mesh_dims) = Ok g /\
            mesh = client_mesh_of g i.
Proof.
  intros Hdt Hcall i.
  assert (Hok : coordinates_ok n c i).
  { destruct (coordinates_ok_dec n c i) as [Hok|Hbad]; [assumption|].
    destruct (@create_distributed_mesh_unchecked client_id Hdt Hbad)
      as [v [E _]].
    rewrite E in Hcall. discriminate. }
  split; [assumption|].
  rewrite (@create_distributed_mesh_checked client_id Hdt Hok) in Hcall.
  fold i in Hcall. rewrite Z.gtb_ltb in Hcall.
  destruct (Z.ltb_spec available k); [discriminate|].
  split; [lia|].
  destruct (np.reshape (np.arange n) (map snd mesh_dims)) as [g|err];
    [|discriminate].
  exists g. split; [reflexivity|]. simpl in Hcall.
  destruct (dtensor_Mesh_validate rt (client_mesh_of g i)) as [[]|err];
    [|discriminate].
  simpl in Hcall. now injection Hcall as <-.
Qed.

End Distributed.

(** ** Local device ids of a distributed mesh *)

Lemma in_range (n j : Z) : In j (range n) <-> 0 <= j < n.
Proof.
  rewrite <- range_from_0, in_range_from. lia.
Qed.

(** C1. A CPU or GPU call of [create_distributed_mesh] that returns a mesh
    gave its client [i] the slice of the flattened grid of global ids that
    starts at [num_local_devices * i] and has [num_local_devices] entries.
    The flattened grid is [0 .. num_global_devices - 1]; the slice of a
    client is a run of consecutive ids; the slices of clients [j] and
    [j + 1] are adjacent and share no id; the slices of all clients, in
    order, make up the whole range; and every other client's call on the
    same arguments gets its own slice. *)
Theorem create_distributed_mesh_local_slice
  (rt : Runtime) (mesh_dims : list (string * Z)) (mesh_name : string)
  (num_global_devices num_clients client_id : option Z)
  (device_type : string) (mesh : Mesh) :
  is_cpu_gpu device_type ->
  create_distributed_mesh rt mesh_dims mesh_name num_global_devices
    num_clients client_id device_type = Ok mesh ->
  let n :=
    if_none num_global_devices (dtensor_num_global_devices rt device_type) in
  let c := if_none num_clients (dtensor_num_clients rt) in
  let i := if_none client_id (dtensor_client_id rt) in
  let num_local_devices := n / c in
  let flattened := np.tolist (np.ravel (global_device_ids mesh)) in
  let slice j :=
    py_slice flattened (num_local_devices * j)
      (num_local_devices * j + num_local_devices) in
  flattened = range n /\
  local_device_ids mesh = slice i /\
  (forall j, 0 <= j < c ->
     slice j = range_from (num_local_devices * j) num_local_devices) /\
  (forall j, 0 <= j -> j + 1 < c ->
     slice j ++ slice (j + 1)
     = range_from (num_local_devices * j) (2 * num_local_devices)) /\
  (forall j j' x, 0 <= j < j' -> j' < c ->
     In x (slice j) -> ~ In x (slice j')) /\
  List.concat (map slice (range c)) = range n /\
  (forall j mesh_j,
     create_distributed_mesh rt mesh_dims mesh_name num_global_devices
       num_clients (Some j) device_type = Ok mesh_j ->
     local_device_ids mesh_j = slice j).
Proof.
  intros Hdt Hcall n c i k flattened slice.
  destruct (create_distributed_mesh_returns _ _ _ _ _ _ Hdt Hcall)
    as ((Hn & Hc & Hi & Hm) & _ & g & Hg & ->).
  fold n c i k in Hn, Hc, Hi, Hm, Hg |- *.
  destruct (reshape_inv _ _ Hg) as (Hdata & _).
  simpl in Hdata.
  assert (Hflat : flattened = range n) by exact Hdata.
  assert (Hnk : n = k * c).
  { unfold k. apply Z.div_exact in Hm; lia. }
  assert (Hk : 0 < k) by nia.
  assert (Hslice : forall j, 0 <= j < c -> slice j = range_from (k * j) k).
  { intros j Hj. unfold slice. rewrite Hflat.
    apply py_slice_range; nia. }
  split; [assumption|]. split; [reflexivity|]. split; [assumption|].
  split; [|split; [|split]].
  - intros j Hj Hj'. rewrite !Hslice by lia.
    replace (k * (j + 1)) with (k * j + k) by ring.
    rewrite range_from_app by nia. f_equal. ring.
  - intros j j' x Hj Hj'. rewrite !Hslice by lia.
    rewrite !in_range_from. nia.
  - rewrite (map_ext_in slice (fun j => range_from (k * j) k)).
    + rewrite <- (Z2Nat.id c) by lia.
      rewrite concat_range_from by lia. f_equal. lia.
    + intros j Hj. apply Hslice. now apply in_range.
  - intros j mesh_j Hcall_j.
    destruct (create_distributed_mesh_returns _ _ _ _ _ _ Hdt Hcall_j)
      as (_ & _ & g' & Hg' & ->).
    fold n c k in Hg'. rewrite Hg in Hg'. injection Hg' as <-.
    reflexivity.
Qed.

(** C2. The mesh a CPU or GPU call of [create_distributed_mesh] returns has
    exactly [num_global_devices / num_clients] local device ids, and the
    division is exact. *)
Theorem create_distributed_mesh_local_count
  (rt : Runtime) (mesh_dims : list (string * Z)) (mesh_name : string)
  (num_global_devices num_clients client_id : option Z)
  (device_type : string) (mesh : Mesh) :
  is_cpu_gpu device_type ->
  create_distributed_mesh rt mesh_dims mesh_name num_global_devices
    num_clients client_id device_type = Ok mesh ->
  let n :=
    if_none num_global_devices (dtensor_num_global_devices rt device_type) in
  let c := if_none num_clients (dtensor_num_clients rt) in
  n mod c = 0 /\
  len (local_device_ids mesh) = n / c /\
  len (local_device_ids mesh) * c = n.
Proof.
  intros Hdt Hcall n c.
  destruct (create_distributed_mesh_returns _ _ _ _ _ _ Hdt Hcall)
    as ((Hn & Hc & Hi & Hm) & _ & g & Hg & ->).
  fold n c in Hn, Hc, Hi, Hm, Hg |- *.
  destruct (reshape_inv _ _ Hg) as (Hdata & _). simpl in Hdata.
  assert (Hnk : n = n / c * c).
  { apply Z.div_exact in Hm; lia. }
  assert (Hk : 0 < n / c) by nia.
  assert (Hlen : len (local_device_ids
                        (client_mesh rt mesh_dims mesh_name num_global_devices
                           num_clients device_type g
                           (if_none client_id (dtensor_client_id rt))))
                 = n / c).
  { simpl. fold n c. rewrite Hdata, py_slice_range by nia.
    rewrite len_range_from. lia. }
  rewrite Hlen. repeat split; [assumption|lia].
Qed.

Lemma create_distributed_mesh_local_slice_witness :
  create_distributed_mesh sample_runtime [("x", 2); ("y", 2)] "" None None
    (Some 1) "cpu" = Ok sample_client_mesh /\
  local_device_ids sample_client_mesh = py_slice [0; 1; 2; 3] 2 4 /\
  local_device_ids sample_client_mesh = [2; 3].
Proof.
  split; [reflexivity|].
  pose proof (@create_distributed_mesh_local_slice sample_runtime
                [("x", 2); ("y", 2)] "" None None (Some 1) "cpu"
                sample_client_mesh eq_refl eq_refl) as H.
  split; [exact (proj1 (proj2 H))|reflexivity].
Defined.

Lemma create_distributed_mesh_local_count_witness :
  create_distributed_mesh sample_runtime [("x", 2); ("y", 2)] "" None None
    (Some 1) "cpu" = Ok sample_client_mesh /\
  len (local_device_ids sample_client_mesh) = 4 / 2.
Proof.
  split; [reflexivity|].
  exact (proj1 (proj2 (@create_distributed_mesh_local_count sample_runtime
                         [("x", 2); ("y", 2)] "" None None (Some 1) "cpu"
                         sample_client_mesh eq_refl eq_refl))).
Defined.

(** ** Rejected coordinates *)

(** C4. In a CPU or GPU call of [create_distributed_mesh], a global device
    count that is not positive, a client count that is not positive, a
    client id outside [0, num_clients), or a global count the client count
    does not divide, each ends the call with the [ValueError] of one of the
    five checks; no mesh is returned. *)
Theorem create_distributed_mesh_rejects_coordinates
  (rt : Runtime) (mesh_dims : list (string * Z)) (mesh_name : string)
  (num_global_devices num_clients client_id : option Z)
  (device_type : string) :
  is_cpu_gpu device_type ->
  let n :=
    if_none num_global_devices (dtensor_num_global_devices rt device_type) in
  let c := if_none num_clients (dtensor_num_clients rt) in
  let i := if_none client_id (dtensor_client_id rt) in
  ~ 0 < n \/ ~ 0 < c \/ ~ 0 <= i < c \/ n mod c <> 0 ->
  exists v,
    create_distributed_mesh rt mesh_dims mesh_name num_global_devices
      num_clients client_id device_type = Raise (ValueError v) /\
    In v [Num_global_devices_not_positive n; Num_clients_not_positive c;
          Client_id_negative i; Client_id_too_large i c; Not_divisible n c].
Proof.
  intros Hdt n c i Hbad.
  apply create_distributed_mesh_unchecked; [assumption|].
  fold n c i. unfold coordinates_ok. tauto.
Qed.

Lemma create_distributed_mesh_rejects_coordinates_witness :
  exists v,
    create_distributed_mesh sample_runtime [("x", 4)] "" None (Some 3)
      (Some 3) "GPU" = Raise (ValueError v) /\
    In v [Num_global_devices_not_positive 4; Num_clients_not_positive 3;
          Client_id_negative 3; Client_id_too_large 3 3; Not_divisible 4 3].
Proof.
  apply (@create_distributed_mesh_rejects_coordinates sample_runtime
           [("x", 4)] "" None (Some 3) (Some 3) "GPU" eq_refl).
  right. right. left. simpl. lia.
Defined.

(** C8. In a CPU or GPU call of [create_distributed_mesh], a local device
    count [num_global_devices / num_clients] above the number of available
    local devices of that type ends the call with a [ValueError]; when the
    coordinates pass their checks it is the error of the availability check
    (line 166), raised before the grid is built and the mesh constructed. *)
Theorem create_distributed_mesh_not_enough_devices
  (rt : Runtime) (mesh_dims : list (string * Z)) (mesh_name : string)
  (num_global_devices num_clients client_id : option Z)
  (device_type : string) :
  is_cpu_gpu device_type ->
  let n :=
    if_none num_global_devices (dtensor_num_global_devices rt device_type) in
  let c := if_none num_clients (dtensor_num_clients rt) in
  let i := if_none client_id (dtensor_client_id rt) in
  let available := dtensor_num_local_devices rt device_type in
  n / c > available ->
  exists v,
    create_distributed_mesh rt mesh_dims mesh_name num_global_devices
      num_clients client_id device_type = Raise (ValueError v) /\
    (coordinates_ok n c i -> v = Not_enough_devices (n / c) available).
Proof.
  intros Hdt n c i available Hfew.
  destruct (coordinates_ok_dec n c i) as [Hok|Hbad].
  - exists (Not_enough_devices (n / c) available). split; [|reflexivity].
    rewrite (create_distributed_mesh_checked _ _ _ _ _ _ Hdt Hok).
    fold n c available. rewrite Z.gtb_ltb.
    destruct (Z.ltb_spec available (n / c)); [reflexivity|lia].
  - destruct (create_distributed_mesh_unchecked _ mesh_dims mesh_name
                _ _ _ Hdt Hbad) as [v [E _]].
    exists v. split; [exact E|]. intros Hok. contradiction.
Qed.

Lemma create_distributed_mesh_not_enough_devices_witness :
  exists v,
    create_distributed_mesh sample_runtime [("x", 8)] "" (Some 8) None None
      "CPU" = Raise (ValueError v) /\
    (coordinates_ok 8 2 0 -> v = Not_enough_devices 4 2).
Proof.
  apply (@create_distributed_mesh_not_enough_devices sample_runtime
           [("x", 8)] "" (Some 8) None None "CPU" eq_refl).
  reflexivity.
Defined.

(** ** TPU meshes *)

Lemma tpu_is_not_cpu_gpu (device_type : string) :
  upper device_type = "TPU" ->
  str_in (upper device_type) ["CPU"; "GPU"] = false.
Proof. intros ->. reflexivity. Qed.

(** C6. With a device type that reads TPU in any letter case, a call of
    [create_distributed_mesh] that supplies [num_global_devices],
    [num_clients] or [client_id] ends with the [ValueError] that names a
    supplied argument.  The outcome is the same on every runtime: the TPU
    topology resolver is not consulted. *)
Theorem create_distributed_mesh_tpu_forbids_arguments
  (mesh_dims : list (string * Z)) (mesh_name : string)
  (num_global_devices num_clients client_id : option Z)
  (device_type : string) :
  upper device_type = "TPU" ->
  num_global_devices <> None \/ num_clients <> None \/ client_id <> None ->
  exists arg,
    (forall rt,
       create_distributed_mesh rt mesh_dims mesh_name num_global_devices
         num_clients client_id device_type
       = Raise (ValueError (Do_not_specify arg "TPU"))) /\
    match arg with
    | Arg_num_global_devices => num_global_devices <> None
    | Arg_num_clients => num_clients <> None
    | Arg_client_id => client_id <> None
    end.
Proof.
  intros Hdt Hsupplied.
  pose proof (tpu_is_not_cpu_gpu _ Hdt) as Hnot.
  unfold create_distributed_mesh. rewrite Hnot, Hdt. simpl.
  destruct num_global_devices as [n|];
    [exists Arg_num_global_devices; split; [reflexivity|discriminate]|].
  destruct num_clients as [c|];
    [exists Arg_num_clients; split; [reflexivity|discriminate]|].
  destruct client_id as [i|];
    [exists Arg_client_id; split; [reflexivity|discriminate]|].
  exfalso. tauto.
Qed.

Lemma create_distributed_mesh_tpu_forbids_arguments_witness :
  exists arg,
    (forall rt,
       create_distributed_mesh rt [("x", 2); ("y", 4)] "" None None
         (Some 0) "Tpu"
       = Raise (ValueError (Do_not_specify arg "TPU"))) /\
    match arg with
    | Arg_num_global_devices => @None Z <> None
    | Arg_num_clients => @None Z <> None
    | Arg_client_id => Some 0 <> None
    end.
Proof.
  apply (@create_distributed_mesh_tpu_forbids_arguments
           [("x", 2); ("y", 4)] "" None None (Some 0) "Tpu" eq_refl).
  right. right. discriminate.
Defined.

(** ** The single-client builder *)

Section Single.

Variable rt : Runtime.
Variable mesh_dims : option (list (string * Z)).
Variable mesh_name : string.
Variable devices : option (list string).
Variable device_type : option string.

(** A failure of the device resolution ends the call where it stands. *)
Lemma create_mesh_unresolved (e : exn) :
  resolve_devices rt devices device_type = Raise e ->
  create_mesh rt mesh_dims mesh_name devices device_type
  = (mesh_dims, Raise e).
Proof.
  intros H. unfold create_mesh. now rewrite H.
Qed.

Lemma create_mesh_resolved (specs : list DeviceSpec) :
  resolve_devices rt devices device_type = Ok specs ->
  create_mesh rt mesh_dims mesh_name devices device_type
  = (fst (fill_mesh_dims mesh_dims specs),
     build_mesh rt (snd (fill_mesh_dims mesh_dims specs)) mesh_name specs).
Proof.
  intros H. unfold create_mesh. rewrite H.
  now destruct (fill_mesh_dims mesh_dims specs).
Qed.

(** What [build_mesh] has gone through when it returns. *)
Lemma build_mesh_returns (dims : list (string * Z))
  (specs : list DeviceSpec) (mesh : Mesh) :
  build_mesh rt dims mesh_name specs = Ok mesh ->
  exists g,
    np.reshape (np.arange (len specs)) (map snd dims) = Ok g /\
    mesh = Build_Mesh (map fst dims) g (np.data g) specs mesh_name /\
    specs <> [].
Proof.
  unfold build_mesh.
  destruct (np.reshape (np.arange (len specs)) (map snd dims)) as [g|err];
    [|discriminate].
  simpl. unfold dtensor_Mesh.
  destruct (dtensor_Mesh_validate rt _) as [[]|err]; [|discriminate].
  simpl. destruct specs as [|d0 specs']; [discriminate|]. simpl.
  destruct (_print_context _ _ _ _ _) as [[]|err]; [|discriminate].
  simpl. intros [= <-]. exists g. repeat split. discriminate.
Qed.

(** What a call of [create_mesh] that returns a mesh has gone through. *)
Lemma create_mesh_returns (mesh : Mesh) :
  snd (create_mesh rt mesh_dims mesh_name devices device_type) = Ok mesh ->
  exists specs g,
    resolve_devices rt devices device_type = Ok specs /\
    specs <> [] /\
    let dims := snd (fill_mesh_dims mesh_dims specs) in
    np.reshape (np.arange (len specs)) (map snd dims) = Ok g /\
    mesh = Build_Mesh (map fst dims) g (np.data g) specs mesh_name.
Proof.
  destruct (resolve_devices rt devices device_type) as [specs|err] eqn:E.
  - rewrite (create_mesh_resolved E). simpl. intros H.
    apply build_mesh_returns in H as (g & Hg & -> & Hne).
    exists specs, g. auto.
  - rewrite (create_mesh_unresolved E). discriminate.
Qed.

End Single.

(** C7. The mesh a call of [create_mesh] returns has, as its local device
    ids, the flattened grid of global ids, which is [0, 1, ..., n - 1] for
    the [n] devices the call resolved (they are the mesh's local devices). *)
Theorem create_mesh_local_ids_full_range
  (rt : Runtime) (mesh_dims : option (list (string * Z)))
  (mesh_name : string) (devices : option (list string))
  (device_type : option string) (mesh : Mesh) :
  snd (create_mesh rt mesh_dims mesh_name devices device_type) = Ok mesh ->
  resolve_devices rt devices device_type = Ok (local_devices mesh) /\
  local_device_ids mesh = np.tolist (np.ravel (global_device_ids mesh)) /\
  local_device_ids mesh = range (len (local_devices mesh)).
Proof.
  intros Hcall.
  apply create_mesh_returns in Hcall as (specs & g & Hres & _ & Hg & ->).
  apply reshape_inv in Hg as (Hdata & _). simpl in *. auto.
Qed.

Lemma create_mesh_local_ids_full_range_witness :
  let mesh := Build_Mesh ["x"] {| np.shape := [2]; np.data := [0; 1] |}
                [0; 1] [device "GPU" 0; device "GPU" 1] "" in
  snd (create_mesh sample_runtime None "" None (Some "gpu")) = Ok mesh /\
  local_device_ids mesh = range 2.
Proof.
  intros mesh. split; [reflexivity|].
  exact (proj2 (proj2 (@create_mesh_local_ids_full_range sample_runtime None
                         "" None (Some "gpu") mesh eq_refl))).
Defined.

(** C3. In the mesh returned by [create_mesh], and in the one returned by
    the CPU and GPU branch of [create_distributed_mesh], the grid of global
    device ids is the reshape of [0 .. n - 1] to the dimension sizes asked
    for, [n] being the global device count (the number of resolved devices
    for [create_mesh]); so the dimension sizes of the mesh multiply to [n],
    and there is one dimension name per dimension. *)
Theorem mesh_dim_sizes_product :
  (forall rt mesh_dims mesh_name devices device_type mesh,
     snd (create_mesh rt mesh_dims mesh_name devices device_type) = Ok mesh ->
     exists specs,
       resolve_devices rt devices device_type = Ok specs /\
       let n := len specs in
       np.reshape (np.arange n)
         (map snd (snd (fill_mesh_dims mesh_dims specs)))
       = Ok (global_device_ids mesh) /\
       np.data (global_device_ids mesh) = range n /\
       np.prod (dim_sizes mesh) = n /\
       List.length (dim_names mesh) = List.length (dim_sizes mesh)) /\
  (forall rt mesh_dims mesh_name num_global_devices num_clients client_id
          device_type mesh,
     is_cpu_gpu device_type ->
     create_distributed_mesh rt mesh_dims mesh_name num_global_devices
       num_clients client_id device_type = Ok mesh ->
     let n :=
       if_none num_global_devices
         (dtensor_num_global_devices rt device_type) in
     np.reshape (np.arange n) (map snd mesh_dims)
     = Ok (global_device_ids mesh) /\
     np.data (global_device_ids mesh) = range n /\
     np.prod (dim_sizes mesh) = n /\
     List.length (dim_names mesh) = List.length (dim_sizes mesh)).
Proof.
  split.
  - intros rt mesh_dims mesh_name devices device_type mesh Hcall.
    apply create_mesh_returns in Hcall as (specs & g & Hres & _ & Hg & ->).
    exists specs. split; [assumption|]. simpl. split; [assumption|].
    apply reshape_inv in Hg as (Hdata & Hprod & Hndim & _).
    rewrite size_arange in Hprod. unfold np.ndim in Hndim.
    unfold dim_sizes. simpl.
    rewrite Hdata, Hprod, Hndim, !length_map. unfold len.
    repeat split; lia.
  - intros rt mesh_dims mesh_name num_global_devices num_clients client_id
      device_type mesh Hdt Hcall n.
    destruct (create_distributed_mesh_returns _ _ _ _ _ _ Hdt Hcall)
      as ((Hn & _) & _ & g & Hg & ->).
    fold n in Hn, Hg. simpl. split; [assumption|].
    apply reshape_inv in Hg as (Hdata & Hprod & Hndim & _).
    rewrite size_arange in Hprod. unfold np.ndim in Hndim.
    unfold dim_sizes. simpl.
    rewrite Hdata, Hprod, Hndim, !length_map.
    repeat split; lia.
Qed.

Lemma mesh_dim_sizes_product_witness :
  snd (create_mesh sample_runtime (Some [("x", -1); ("y", 2)]) "" None None)
  = Ok (Build_Mesh ["x"; "y"] {| np.shape := [1; 2]; np.data := [0; 1] |}
          [0; 1] [device "CPU" 0; device "CPU" 1] "") /\
  np.prod [1; 2] = 2 /\
  create_distributed_mesh sample_runtime [("x", 2); ("y", 2)] "" None None
    (Some 1) "cpu" = Ok sample_client_mesh /\
  np.prod (dim_sizes sample_client_mesh) = 4.
Proof.
  split; [reflexivity|]. split.
  - destruct (proj1 mesh_dim_sizes_product sample_runtime
                (Some [("x", -1); ("y", 2)]) "" None None _ eq_refl)
      as (specs & Hres & _ & _ & Hprod & _).
    injection Hres as <-. exact Hprod.
  - split; [reflexivity|].
    exact (proj1 (proj2 (proj2 (proj2 mesh_dim_sizes_product sample_runtime
                                  [("x", 2); ("y", 2)] "" None None (Some 1)
                                  "cpu" sample_client_mesh eq_refl
                                  eq_refl)))).
Defined.

(** ** Explicit devices against the requested device type *)




(** ** The caller's [mesh_dims] *)

(** A one-dimensional [mesh_dims] of size -1 is left as it was when the
    requested device type conflicts with the explicit devices: the call
    raises at line 78, before the assignment of line 84, although one
    device was resolved. *)
Lemma create_mesh_conflict_keeps_mesh_dims :
  let call :=
    create_mesh sample_runtime (Some [("x", -1)]) "" (Some ["CPU:0"])
      (Some "GPU") in
  parse_devices sample_runtime ["CPU:0"] = Ok [device "CPU" 0] /\
  snd call
  = Raise (ValueError (Conflicting_devices [device "CPU" 0] "GPU")) /\
  fst call = Some [("x", -1)] /\
  fst call <> Some [("x", 1)].
Proof.
  cbv zeta. repeat split. discriminate.
Qed.

(** C9, amended. When the devices of a [create_mesh] call resolve and pass
    the type check, a [mesh_dims] made of a single dimension of size -1 is
    overwritten in place with the same name and the number of resolved
    devices; any other [mesh_dims] is left as it was, and so is every
    [mesh_dims] when the device resolution or the type check raises. *)
Theorem create_mesh_mesh_dims_after
  (rt : Runtime) (mesh_dims : option (list (string * Z)))
  (mesh_name : string) (devices : option (list string))
  (device_type : option string) :
  let after :=
    fst (create_mesh rt mesh_dims mesh_name devices device_type) in
  (forall specs dim_name,
     resolve_devices rt devices device_type = Ok specs ->
     mesh_dims = Some [(dim_name, -1)] ->
     after = Some [(dim_name, len specs)]) /\
  ((forall dim_name, mesh_dims <> Some [(dim_name, -1)]) ->
   after = mesh_dims) /\
  (forall e,
     resolve_devices rt devices device_type = Raise e ->
     after = mesh_dims).
Proof.
  cbv zeta. split; [|split].
  - intros specs dim_name Hres ->.
    rewrite (create_mesh_resolved _ _ _ _ _ Hres). reflexivity.
  - intros Hother.
    destruct (resolve_devices rt devices device_type) as [specs|err] eqn:E.
    + rewrite (create_mesh_resolved _ _ _ _ _ E). simpl.
      destruct mesh_dims as [[|[dim_name dim_size] [|d l]]|];
        try reflexivity.
      simpl. destruct (Z.eqb_spec dim_size (-1)) as [->|Hsize];
        [|reflexivity].
      now destruct (Hother dim_name).
    + now rewrite (create_mesh_unresolved _ _ _ _ _ E).
  - intros err E. now rewrite (create_mesh_unresolved _ _ _ _ _ E).
Qed.

Lemma create_mesh_mesh_dims_after_witness :
  resolve_devices sample_runtime (Some ["GPU:0"; "GPU:1"]) None
  = Ok [device "GPU" 0; device "GPU" 1] /\
  fst (create_mesh sample_runtime (Some [("batch", -1)]) ""
         (Some ["GPU:0"; "GPU:1"]) None)
  = Some [("batch", 2)].
Proof.
  split; [reflexivity|].
  exact (proj1 (@create_mesh_mesh_dims_after sample_runtime
                  (Some [("batch", -1)]) "" (Some ["GPU:0"; "GPU:1"]) None)
           [device "GPU" 0; device "GPU" 1] "batch" eq_refl eq_refl).
Defined.

(** ** No device at all *)

(** With no logical device and a [mesh_dims] that asks for two devices, the
    call does not reach [devices[0]]: the reshape of line 88 raises. *)
Lemma no_devices_reshape_error_first :
  let call := create_mesh bare_runtime (Some [("x", 2)]) "" None None in
  resolve_devices bare_runtime None None = Ok [] /\
  snd call = Raise (ValueError (Cannot_reshape 0 [2])) /\
  snd call <> Raise IndexError.
Proof.
  cbv zeta. repeat split. discriminate.
Qed.

(** The only errors of a reshape. *)
Lemma reshape_raises (a : np.ndarray) (s : list Z) (e : exn) :
  np.reshape a s = Raise e ->
  e = ValueError (Cannot_reshape (np.size a) s) \/
  e = ValueError One_unknown_dimension.
Proof.
  unfold np.reshape, np.fix_unknown_dimension.
  destruct (np.unknowns s) as [|[|u]].
  - destruct (np.size a =? np.known_size s); simpl; [discriminate|].
    intros [= <-]. now left.
  - destruct ((np.known_size s =? 0)
              || negb (np.size a mod np.known_size s =? 0))%bool; simpl;
      [|discriminate].
    intros [= <-]. now left.
  - simpl. intros [= <-]. now right.
Qed.

(** Without devices, [build_mesh] ends at the latest on [devices[0]]. *)
Lemma build_mesh_no_devices (rt : Runtime) (dims : list (string * Z))
  (mesh_name : string) :
  build_mesh rt dims mesh_name []
  = g <- np.reshape (np.arange 0) (map snd dims);;
    _ <- dtensor_Mesh_validate rt
           (Build_Mesh (map fst dims) g (np.data g) [] mesh_name);;
    Raise IndexError.
Proof.
  unfold build_mesh. change (len (@nil DeviceSpec)) with 0.
  destruct (np.reshape (np.arange 0) (map snd dims)) as [g|err];
    [|reflexivity].
  simpl. unfold dtensor_Mesh.
  destruct (dtensor_Mesh_validate rt _) as [[]|err]; reflexivity.
Qed.

(** C10, amended. [create_mesh] has no check for an empty device list and
    never returns a mesh for one.  An explicit empty [devices] list always
    fails on [devices[0]] (line 76 or 77).  When [devices] is left out and
    no logical device of the type is available, the call fails on
    [devices[0]] (line 100) whenever the empty range reshapes to the
    dimension sizes and the mesh constructor accepts its arguments;
    otherwise the [ValueError] of the reshape (line 88), or the error of the
    constructor, comes first. *)
Theorem create_mesh_no_devices
  (rt : Runtime) (mesh_dims : option (list (string * Z)))
  (mesh_name : string) (device_type : option string) :
  snd (create_mesh rt mesh_dims mesh_name (Some []) device_type)
  = Raise IndexError /\
  (tf_config_list_logical_devices rt
     match device_type with None => "CPU" | Some t => t end = [] ->
   let call := snd (create_mesh rt mesh_dims mesh_name None device_type) in
   let dims := snd (fill_mesh_dims mesh_dims []) in
   ~ returns call /\
   (forall e,
      np.reshape (np.arange 0) (map snd dims) = Raise e ->
      call = Raise e /\
      (e = ValueError (Cannot_reshape 0 (map snd dims)) \/
       e = ValueError One_unknown_dimension)) /\
   (forall g,
      np.reshape (np.arange 0) (map snd dims) = Ok g ->
      match dtensor_Mesh_validate rt
              (Build_Mesh (map fst dims) g [] [] mesh_name) with
      | Ok _ => call = Raise IndexError
      | Raise e => call = Raise e
      end)).
Proof.
  split.
  - assert (Hres : resolve_devices rt (Some []) device_type
                   = Raise IndexError).
    { unfold resolve_devices. simpl. now destruct device_type. }
    now rewrite (create_mesh_unresolved _ _ _ _ _ Hres).
  - intros Hnone. cbv zeta.
    assert (Hres : resolve_devices rt None device_type = Ok []).
    { unfold resolve_devices. now rewrite Hnone. }
    rewrite (create_mesh_resolved _ _ _ _ _ Hres). simpl snd.
    rewrite build_mesh_no_devices.
    set (dims := snd (fill_mesh_dims mesh_dims [])).
    destruct (np.reshape (np.arange 0) (map snd dims)) as [g|err] eqn:Hg.
    + apply reshape_inv in Hg as (Hdata & _). simpl in Hdata.
      simpl. rewrite Hdata. change (range 0) with (@nil Z).
      split; [|split].
      * intros [m Hm].
        destruct (dtensor_Mesh_validate rt _) as [[]|err]; discriminate.
      * discriminate.
      * intros g' [= <-].
        destruct (dtensor_Mesh_validate rt _) as [[]|err]; reflexivity.
    + simpl. split; [|split].
      * intros [m Hm]. discriminate.
      * intros e [= <-]. split; [reflexivity|].
        apply reshape_raises in Hg. exact Hg.
      * intros g'. discriminate.
Qed.

Lemma create_mesh_no_devices_witness :
  tf_config_list_logical_devices bare_runtime "CPU" = [] /\
  snd (create_mesh bare_runtime (Some [("x", -1)]) "" None None)
  = Raise IndexError.
Proof.
  split; [reflexivity|].
  destruct (proj2 (@create_mesh_no_devices bare_runtime
                     (Some [("x", -1)]) "" None) eq_refl)
    as (_ & _ & H).
  exact (H {| np.shape := [0]; np.data := [] |} eq_refl).
Defined.

(** * Further properties of [create_distributed_mesh] *)

Lemma str_in_In (s : string) (l : list string) :
  str_in s l = true <-> In s l.
Proof.
  unfold str_in. rewrite existsb_exists. split.
  - intros [x [Hx E]]. apply String.eqb_eq in E. now subst.
  - intros H. exists s. split; [assumption|apply String.eqb_refl].
Qed.

(** X1. A device type that is none of CPU, GPU and TPU, letter case aside,
    ends [create_distributed_mesh] with the [ValueError] of line 214, on
    every runtime and whatever the other arguments are. *)
Theorem unsupported_device_type_raises
  (mesh_dims : list (string * Z)) (mesh_name : string)
  (num_global_devices num_clients client_id : option Z)
  (device_type : string) :
  ~ In (upper device_type) ["CPU"; "GPU"; "TPU"] ->
  forall rt,
    create_distributed_mesh rt mesh_dims mesh_name num_global_devices
      num_clients client_id device_type
    = Raise (ValueError (Not_cpu_gpu_tpu device_type)).
Proof.
  intros Hnot rt. unfold create_distributed_mesh.
  destruct (str_in (upper device_type) ["CPU"; "GPU"]) eqn:Hcg.
  - apply str_in_In in Hcg. exfalso. apply Hnot.
    destruct Hcg as [H|[H|[]]]; rewrite <- H; simpl; auto.
  - destruct (String.eqb_spec (upper device_type) "TPU") as [Ht|Ht];
      [|reflexivity].
    exfalso. apply Hnot. rewrite Ht. simpl. auto.
Qed.

Lemma unsupported_device_type_raises_witness :
  create_distributed_mesh sample_runtime [("x", 4)] "" (Some 4) None None
    "xla_cpu"
  = Raise (ValueError (Not_cpu_gpu_tpu "xla_cpu")).
Proof.
  apply (@unsupported_device_type_raises [("x", 4)] "" (Some 4) None None
           "xla_cpu").
  simpl. intros [H|[H|[H|[]]]]; discriminate.
Defined.

(** X2. For a TPU device type and none of the three cluster coordinates
    supplied, the outcome of [create_distributed_mesh] is the outcome of
    [tpu_util.create_tpu_mesh] on the dimension names, the dimension sizes
    and the mesh name: its mesh is returned as it is, its error is the
    call's error. *)
Theorem tpu_mesh_is_delegated
  (rt : Runtime) (mesh_dims : list (string * Z)) (mesh_name : string)
  (device_type : string) :
  upper device_type = "TPU" ->
  create_distributed_mesh rt mesh_dims mesh_name None None None device_type
  = tpu_util_create_tpu_mesh rt (map fst mesh_dims) (map snd mesh_dims)
      mesh_name.
Proof.
  intros Hdt. unfold create_distributed_mesh.
  rewrite (tpu_is_not_cpu_gpu _ Hdt), Hdt. simpl.
  now destruct (tpu_util_create_tpu_mesh rt _ _ _).
Qed.

Lemma tpu_mesh_is_delegated_witness :
  create_distributed_mesh tpu_runtime [("x", 2); ("y", 4)] "pod" None None
    None "tpu"
  = Ok (Build_Mesh ["x"; "y"]
          {| np.shape := [2; 4]; np.data := [0; 1; 2; 3; 4; 5; 6; 7] |}
          [0; 1; 2; 3; 4; 5; 6; 7] [] "pod").
Proof.
  rewrite (@tpu_mesh_is_delegated tpu_runtime [("x", 2); ("y", 4)] "pod"
             "tpu" eq_refl).
  reflexivity.
Defined.

(** X3. In the CPU and GPU branch the checks of lines 142-159 are tried in
    order, and the error raised is that of the first one that fails. *)
Theorem first_failed_check_is_reported
  (rt : Runtime) (mesh_dims : list (string * Z)) (mesh_name : string)
  (num_global_devices num_clients client_id : option Z)
  (device_type : string) :
  is_cpu_gpu device_type ->
  let n :=
    if_none num_global_devices (dtensor_num_global_devices rt device_type) in
  let c := if_none num_clients (dtensor_num_clients rt) in
  let i := if_none client_id (dtensor_client_id rt) in
  let call :=
    create_distributed_mesh rt mesh_dims mesh_name num_global_devices
      num_clients client_id device_type in
  (n <= 0 ->
   call = Raise (ValueError (Num_global_devices_not_positive n))) /\
  (0 < n -> c <= 0 ->
   call = Raise (ValueError (Num_clients_not_positive c))) /\
  (0 < n -> 0 < c -> i < 0 ->
   call = Raise (ValueError (Client_id_negative i))) /\
  (0 < n -> 0 < c -> c <= i ->
   call = Raise (ValueError (Client_id_too_large i c))) /\
  (0 < n -> 0 < c -> 0 <= i < c -> n mod c <> 0 ->
   call = Raise (ValueError (Not_divisible n c))).
Proof.
  intros Hdt n c i. cbv zeta.
  unfold create_distributed_mesh. unfold is_cpu_gpu in Hdt. rewrite Hdt.
  fold n c i. rewrite Z.geb_leb.
  repeat split; intros; cmp_cases; try lia; reflexivity.
Qed.

Lemma first_failed_check_is_reported_witness :
  create_distributed_mesh sample_runtime [("x", 4)] "" (Some 0) (Some 0)
    (Some (-1)) "gpu"
  = Raise (ValueError (Num_global_devices_not_positive 0)).
Proof.
  apply (proj1 (@first_failed_check_is_reported sample_runtime [("x", 4)] ""
                  (Some 0) (Some 0) (Some (-1)) "gpu" eq_refl)).
  simpl. lia.
Defined.

Lemma unknowns_nonneg (s : list Z) :
  Forall (fun d => 0 <= d) s -> np.unknowns s = O.
Proof.
  unfold np.unknowns. induction 1 as [|d s Hd _ IH]; [reflexivity|].
  simpl. destruct (Z.ltb_spec d 0); [lia|assumption].
Qed.

(** X4. When a CPU or GPU call passes the checks on its coordinates, asks
    for no more local devices than are available, gives dimension sizes
    that are non-negative and multiply to the global device count, and the
    mesh constructor accepts, [create_distributed_mesh] returns the mesh:
    the grid has the sizes of [mesh_dims] and holds [0 .. n - 1], and the
    local ids are the client's run of [n / c] ids. *)
Theorem distributed_mesh_is_returned
  (rt : Runtime) (mesh_dims : list (string * Z)) (mesh_name : string)
  (num_global_devices num_clients client_id : option Z)
  (device_type : string) :
  is_cpu_gpu device_type ->
  let n :=
    if_none num_global_devices (dtensor_num_global_devices rt device_type) in
  let c := if_none num_clients (dtensor_num_clients rt) in
  let i := if_none client_id (dtensor_client_id rt) in
  let mesh :=
    Build_Mesh (map fst mesh_dims)
      {| np.shape := map snd mesh_dims; np.data := range n |}
      (range_from (n / c * i) (n / c))
      (py_slice (dtensor_local_devices rt device_type i) 0 (n / c))
      mesh_name in
  coordinates_ok n c i ->
  n / c <= dtensor_num_local_devices rt device_type ->
  Forall (fun d => 0 <= snd d) mesh_dims ->
  np.prod (map snd mesh_dims) = n ->
  dtensor_Mesh_validate rt mesh = Ok tt ->
  create_distributed_mesh rt mesh_dims mesh_name num_global_devices
    num_clients client_id device_type = Ok mesh.
Proof.
  intros Hdt n c i mesh Hok Havail Hdims Hprod Hvalid.
  rewrite (create_distributed_mesh_checked _ _ _ _ _ _ Hdt Hok).
  fold n c i. rewrite Z.gtb_ltb.
  destruct (Z.ltb_spec (dtensor_num_local_devices rt device_type) (n / c));
    [lia|].
  destruct Hok as (Hn & Hc & Hi & Hm).
  rewrite reshape_exact.
  - simpl. unfold client_mesh. fold n c. simpl np.data.
    assert (Hnk : n = n / c * c) by (apply Z.div_exact in Hm; lia).
    rewrite py_slice_range by nia.
    fold mesh. now rewrite Hvalid.
  - apply unknowns_nonneg. now rewrite Forall_map.
  - rewrite size_arange. lia.
Qed.

Lemma distributed_mesh_is_returned_witness :
  create_distributed_mesh sample_runtime [("x", 4); ("y", 1)] "m" None None
    None "CPU"
  = Ok (Build_Mesh ["x"; "y"]
          {| np.shape := [4; 1]; np.data := [0; 1; 2; 3] |}
          [0; 1] [device "CPU" 0; device "CPU" 1] "m").
Proof.
  apply (@distributed_mesh_is_returned sample_runtime [("x", 4); ("y", 1)]
           "m" None None None "CPU" eq_refl).
  - unfold coordinates_ok. repeat split; easy.
  - easy.
  - repeat constructor; easy.
  - reflexivity.
  - reflexivity.
Defined.

Lemma py_slice_prefix {A} (l : list A) (k : Z) :
  0 <= k -> py_slice l 0 k = firstn (Z.to_nat k) l.
Proof.
  intros Hk. unfold py_slice, slice_bound.
  destruct (Z.ltb_spec 0 0); [lia|].
  destruct (Z.ltb_spec k 0); [lia|].
  replace (Z.to_nat (Z.min 0 (len l))) with O by (unfold len; lia).
  simpl skipn. unfold len.
  destruct (Z.le_ge_cases k (Z.of_nat (List.length l))) as [Hle|Hge].
  - do 2 f_equal. lia.
  - rewrite !firstn_all2 by lia. reflexivity.
Qed.

(** X5. The local devices of the mesh a CPU or GPU call returns are the
    first [n / c] devices that [dtensor.local_devices] lists for the
    client; there are never more of them than local device ids, and as
    many when the runtime lists at least [n / c] devices. *)
Theorem local_devices_are_the_first_ones
  (rt : Runtime) (mesh_dims : list (string * Z)) (mesh_name : string)
  (num_global_devices num_clients client_id : option Z)
  (device_type : string) (mesh : Mesh) :
  is_cpu_gpu device_type ->
  create_distributed_mesh rt mesh_dims mesh_name num_global_devices
    num_clients client_id device_type = Ok mesh ->
  let n :=
    if_none num_global_devices (dtensor_num_global_devices rt device_type) in
  let c := if_none num_clients (dtensor_num_clients rt) in
  let i := if_none client_id (dtensor_client_id rt) in
  let listed := dtensor_local_devices rt device_type i in
  local_devices mesh = firstn (Z.to_nat (n / c)) listed /\
  len (local_devices mesh) <= len (local_device_ids mesh) /\
  (n / c <= len listed ->
   len (local_devices mesh) = len (local_device_ids mesh)).
Proof.
  intros Hdt Hcall n c i listed.
  destruct (create_distributed_mesh_returns _ _ _ _ _ _ Hdt Hcall)
    as ((Hn & Hc & Hi & Hm) & _ & g & Hg & ->).
  fold n c i in Hn, Hc, Hi, Hm, Hg |- *.
  destruct (reshape_inv _ _ Hg) as (Hdata & _). simpl in Hdata.
  assert (Hnk : n = n / c * c) by (apply Z.div_exact in Hm; lia).
  assert (Hk : 0 < n / c) by nia.
  unfold client_mesh. fold n c i listed. simpl.
  rewrite Hdata, py_slice_range, py_slice_prefix, len_range_from by nia.
  split; [reflexivity|]. unfold len. rewrite length_firstn. lia.
Qed.

Lemma local_devices_are_the_first_ones_witness :
  local_devices sample_client_mesh = [device "CPU" 0; device "CPU" 1] /\
  len (local_devices sample_client_mesh)
  = len (local_device_ids sample_client_mesh).
Proof.
  destruct (@local_devices_are_the_first_ones sample_runtime
              [("x", 2); ("y", 2)] "" None None (Some 1) "cpu"
              sample_client_mesh eq_refl eq_refl) as (H1 & _ & H3).
  split; [exact H1|]. apply H3. vm_compute. discriminate.
Defined.

(** X6. Arguments given by the caller take precedence over the environment:
    with the three coordinates supplied, a CPU or GPU call has the same
    outcome on two runtimes that list the same local devices and build
    meshes alike, whatever their global device count, client count and
    client id are. *)
Theorem supplied_coordinates_override_environment
  (rt rt' : Runtime) (mesh_dims : list (string * Z)) (mesh_name : string)
  (n c i : Z) (device_type : string) :
  is_cpu_gpu device_type ->
  dtensor_num_local_devices rt device_type
  = dtensor_num_local_devices rt' device_type ->
  dtensor_local_devices rt device_type i
  = dtensor_local_devices rt' device_type i ->
  (forall mesh, dtensor_Mesh_validate rt mesh
                = dtensor_Mesh_validate rt' mesh) ->
  create_distributed_mesh rt mesh_dims mesh_name (Some n) (Some c) (Some i)
    device_type
  = create_distributed_mesh rt' mesh_dims mesh_name (Some n) (Some c)
      (Some i) device_type.
Proof.
  intros Hdt Havail Hlisted Hvalid.
  unfold create_distributed_mesh. unfold is_cpu_gpu in Hdt. rewrite Hdt.
  simpl if_none. rewrite Havail, Hlisted.
  repeat match goal with
         | |- (if ?b then _ else _) = (if ?b then _ else _) =>
             destruct b; [reflexivity|]
         end.
  destruct (np.reshape (np.arange n) (map snd mesh_dims)) as [g|err];
    [|reflexivity].
  simpl. unfold dtensor_Mesh. now rewrite Hvalid.
Qed.

Lemma supplied_coordinates_override_environment_witness :
  dtensor_num_clients sample_runtime
  <> dtensor_num_clients sample_runtime_other_env /\
  create_distributed_mesh sample_runtime [("x", 4)] "" (Some 4) (Some 2)
    (Some 1) "GPU"
  = create_distributed_mesh sample_runtime_other_env [("x", 4)] ""
      (Some 4) (Some 2) (Some 1) "GPU".
Proof.
  split; [discriminate|].
  apply (@supplied_coordinates_override_environment sample_runtime
           sample_runtime_other_env [("x", 4)] "" 4 2 1 "GPU");
    reflexivity.
Defined.

(** X7. In the mesh a CPU or GPU call returns, a global device id [x] is
    local to the client exactly when it is an id of the cluster and
    [x // num_local_devices] is the client's id. *)
Theorem local_id_owner
  (rt : Runtime) (mesh_dims : list (string * Z)) (mesh_name : string)
  (num_global_devices num_clients client_id : option Z)
  (device_type : string) (mesh : Mesh) :
  is_cpu_gpu device_type ->
  create_distributed_mesh rt mesh_dims mesh_name num_global_devices
    num_clients client_id device_type = Ok mesh ->
  let n :=
    if_none num_global_devices (dtensor_num_global_devices rt device_type) in
  let c := if_none num_clients (dtensor_num_clients rt) in
  let i := if_none client_id (dtensor_client_id rt) in
  forall x,
    In x (local_device_ids mesh) <-> 0 <= x < n /\ x / (n / c) = i.
Proof.
  intros Hdt Hcall n c i x.
  destruct (create_distributed_mesh_returns _ _ _ _ _ _ Hdt Hcall)
    as ((Hn & Hc & Hi & Hm) & _ & g & Hg & ->).
  fold n c i in Hn, Hc, Hi, Hm, Hg |- *.
  destruct (reshape_inv _ _ Hg) as (Hdata & _). simpl in Hdata.
  assert (Hnk : n = n / c * c) by (apply Z.div_exact in Hm; lia).
  assert (Hk : 0 < n / c) by nia.
  unfold client_mesh. fold n c i. simpl.
  rewrite Hdata, py_slice_range, in_range_from by nia.
  split.
  - intros Hx. split; [nia|].
    symmetry. apply (Z.div_unique x (n / c) i (x - n / c * i)); lia.
  - intros [Hx <-].
    pose proof (Z.mul_div_le x (n / c) Hk).
    pose proof (Z.mul_succ_div_gt x (n / c) Hk). lia.
Qed.

Lemma local_id_owner_witness :
  In 3 (local_device_ids sample_client_mesh) /\
  ~ In 1 (local_device_ids sample_client_mesh).
Proof.
  pose proof (@local_id_owner sample_runtime [("x", 2); ("y", 2)] "" None
                None (Some 1) "cpu" sample_client_mesh eq_refl eq_refl)
    as H.
  split.
  - apply (H 3). split; [split|]; easy.
  - intros H1. apply (H 1) in H1. destruct H1 as [_ H1]. discriminate H1.
Defined.

(** X8. All clients of a CPU or GPU cluster that call with the same
    arguments get the same dimension names, the same grid of global ids and
    the same mesh name; two different clients share no local id. *)
Theorem clients_share_the_grid
  (rt : Runtime) (mesh_dims : list (string * Z)) (name : string)
  (num_global_devices num_clients : option Z) (device_type : string)
  (j j' : Z) (mesh mesh' : Mesh) :
  is_cpu_gpu device_type ->
  create_distributed_mesh rt mesh_dims name num_global_devices
    num_clients (Some j) device_type = Ok mesh ->
  create_distributed_mesh rt mesh_dims name num_global_devices
    num_clients (Some j') device_type = Ok mesh' ->
  dim_names mesh = dim_names mesh' /\
  global_device_ids mesh = global_device_ids mesh' /\
  mesh_name mesh = mesh_name mesh' /\
  (j <> j' ->
   forall x, In x (local_device_ids mesh) -> ~ In x (local_device_ids mesh')).
Proof.
  intros Hdt Hcall Hcall'.
  destruct (create_distributed_mesh_returns _ _ _ _ _ _ Hdt Hcall)
    as ((Hn & Hc & Hj & Hm) & _ & g & Hg & ->).
  destruct (create_distributed_mesh_returns _ _ _ _ _ _ Hdt Hcall')
    as ((_ & _ & Hj' & _) & _ & g' & Hg' & ->).
  rewrite Hg in Hg'. injection Hg' as <-.
  simpl in Hj, Hj'. repeat split.
  intros Hneq x.
  destruct (reshape_inv _ _ Hg) as (Hdata & _). simpl in Hdata.
  set (n := if_none num_global_devices
              (dtensor_num_global_devices rt device_type)) in *.
  set (c := if_none num_clients (dtensor_num_clients rt)) in *.
  assert (Hnk : n = n / c * c) by (apply Z.div_exact in Hm; lia).
  assert (Hk : 0 < n / c) by nia.
  unfold client_mesh. fold n c. simpl.
  rewrite Hdata, !py_slice_range, !in_range_from by nia.
  nia.
Qed.

Lemma clients_share_the_grid_witness :
  let mesh' :=
    client_mesh sample_runtime [("x", 2); ("y", 2)] "" None None "cpu"
      sample_grid 0 in
  create_distributed_mesh sample_runtime [("x", 2); ("y", 2)] "" None None
    (Some 0) "cpu" = Ok mesh' /\
  global_device_ids sample_client_mesh = global_device_ids mesh' /\
  ~ In 2 (local_device_ids mesh').
Proof.
  intros mesh'. split; [reflexivity|].
  destruct (@clients_share_the_grid sample_runtime [("x", 2); ("y", 2)] ""
              None None "cpu" 1 0 sample_client_mesh mesh' eq_refl eq_refl
              eq_refl) as (_ & Hgrid & _ & Hdisjoint).
  split; [exact Hgrid|]. apply Hdisjoint; [discriminate|].
  simpl. auto.
Defined.

(** X9. With a single client, the mesh a CPU or GPU call returns has every
    global device id as a local id, in order, and the client is client 0. *)
Theorem single_client_owns_every_id
  (rt : Runtime) (mesh_dims : list (string * Z)) (mesh_name : string)
  (num_global_devices num_clients client_id : option Z)
  (device_type : string) (mesh : Mesh) :
  is_cpu_gpu device_type ->
  create_distributed_mesh rt mesh_dims mesh_name num_global_devices
    num_clients client_id device_type = Ok mesh ->
  if_none num_clients (dtensor_num_clients rt) = 1 ->
  if_none client_id (dtensor_client_id rt) = 0 /\
  local_device_ids mesh
  = range (if_none num_global_devices
             (dtensor_num_global_devices rt device_type)) /\
  local_device_ids mesh = np.data (global_device_ids mesh).
Proof.
  intros Hdt Hcall Hone.
  destruct (create_distributed_mesh_returns _ _ _ _ _ _ Hdt Hcall)
    as ((Hn & Hc & Hi & Hm) & _ & g & Hg & ->).
  rewrite Hone in *.
  destruct (reshape_inv _ _ Hg) as (Hdata & _). simpl in Hdata.
  assert (Hi0 : if_none client_id (dtensor_client_id rt) = 0) by lia.
  split; [assumption|].
  unfold client_mesh. simpl. rewrite Hone, Hi0, Hdata, Z.div_1_r.
  rewrite py_slice_range by lia. rewrite Z.mul_0_r, range_from_0. auto.
Qed.

Lemma single_client_owns_every_id_witness :
  let mesh :=
    Build_Mesh ["x"] {| np.shape := [2]; np.data := [0; 1] |} [0; 1]
      [device "CPU" 0; device "CPU" 1] "" in
  create_distributed_mesh sample_runtime [("x", 2)] "" (Some 2) (Some 1)
    None "CPU" = Ok mesh /\
  local_device_ids mesh = range 2.
Proof.
  intros mesh. split; [reflexivity|].
  exact (proj1 (proj2 (@single_client_owns_every_id sample_runtime
                         [("x", 2)] "" (Some 2) (Some 1) None "CPU" mesh
                         eq_refl eq_refl eq_refl))).
Defined.

(** * Further properties of [create_mesh] *)

Lemma len_nonneg {A} (l : list A) : 0 <= len l.
Proof. unfold len. lia. Qed.

Lemma fill_mesh_dims_again (mesh_dims : option (list (string * Z)))
  (specs : list DeviceSpec) :
  fill_mesh_dims (fst (fill_mesh_dims mesh_dims specs)) specs
  = fill_mesh_dims mesh_dims specs.
Proof.
  pose proof (len_nonneg specs) as Hlen.
  destruct mesh_dims as [[|[dim_name dim_size] [|d l]]|]; try reflexivity.
  simpl. destruct (Z.eqb_spec dim_size (-1)) as [->|Hsize]; simpl.
  - destruct (Z.eqb_spec (len specs) (-1)); [lia|reflexivity].
  - destruct (Z.eqb_spec dim_size (-1)); [contradiction|reflexivity].
Qed.

(** The reshape of [0 .. n - 1] to the one-dimensional shape [[n]]. *)
Lemma reshape_flat (n : Z) :
  0 <= n ->
  np.reshape (np.arange n) [n]
  = Ok {| np.shape := [n]; np.data := range n |}.
Proof.
  intros Hn. rewrite reshape_exact; [reflexivity| |].
  - apply unknowns_nonneg. now constructor.
  - rewrite size_arange. simpl. lia.
Qed.

(** X10. A list that [create_mesh] has been called on can be passed again:
    the second call, on the list as the first call left it and with the
    other arguments unchanged, has the outcome of the first and leaves the
    list as it found it. *)
Theorem create_mesh_twice
  (rt : Runtime) (mesh_dims : option (list (string * Z)))
  (mesh_name : string) (devices : option (list string))
  (device_type : option string) :
  let first := create_mesh rt mesh_dims mesh_name devices device_type in
  create_mesh rt (fst first) mesh_name devices device_type = first.
Proof.
  cbv zeta.
  destruct (resolve_devices rt devices device_type) as [specs|err] eqn:E.
  - rewrite (create_mesh_resolved _ mesh_dims _ _ _ E). simpl fst.
    rewrite (create_mesh_resolved _ _ _ _ _ E).
    now rewrite fill_mesh_dims_again.
  - rewrite (create_mesh_unresolved _ mesh_dims _ _ _ E). simpl fst.
    apply (create_mesh_unresolved _ _ _ _ _ E).
Qed.

(** X11. When [mesh_dims] is left out, or is a single dimension of size
    -1, the mesh [create_mesh] returns is one-dimensional: one name (x when
    [mesh_dims] is left out), one size, the number of devices, and the grid
    [0 .. n - 1]. *)
Theorem one_dimension_over_all_devices
  (rt : Runtime) (mesh_dims : option (list (string * Z)))
  (mesh_name : string) (devices : option (list string))
  (device_type : option string) (mesh : Mesh) (dim_name : string) :
  snd (create_mesh rt mesh_dims mesh_name devices device_type) = Ok mesh ->
  mesh_dims = None /\ dim_name = "x" \/ mesh_dims = Some [(dim_name, -1)] ->
  dim_names mesh = [dim_name] /\
  dim_sizes mesh = [len (local_devices mesh)] /\
  np.data (global_device_ids mesh) = range (len (local_devices mesh)).
Proof.
  intros Hcall Hdims.
  apply create_mesh_returns in Hcall as (specs & g & _ & _ & Hg & ->).
  assert (Hfill : snd (fill_mesh_dims mesh_dims specs)
                  = [(dim_name, len specs)]).
  { destruct Hdims as [[-> ->]| ->]; reflexivity. }
  rewrite Hfill in Hg |- *. simpl in Hg.
  rewrite reshape_flat in Hg by apply len_nonneg.
  injection Hg as <-. unfold dim_sizes. simpl. auto.
Qed.

Lemma one_dimension_over_all_devices_witness :
  let mesh :=
    Build_Mesh ["batch"] {| np.shape := [2]; np.data := [0; 1] |} [0; 1]
      [device "GPU" 0; device "GPU" 1] "" in
  snd (create_mesh sample_runtime (Some [("batch", -1)]) ""
         (Some ["GPU:0"; "GPU:1"]) None) = Ok mesh /\
  dim_sizes mesh = [2].
Proof.
  intros mesh. split; [reflexivity|].
  exact (proj1 (proj2 (@one_dimension_over_all_devices sample_runtime
                         (Some [("batch", -1)]) ""
                         (Some ["GPU:0"; "GPU:1"]) None mesh "batch"
                         eq_refl (or_intror eq_refl)))).
Defined.

(** X12. The call with every argument missing: when the logical CPU
    devices parse, the first of them has a device type and the mesh
    constructor accepts, [create_mesh] returns the one-dimensional mesh
    named x over all of them, with an empty mesh name and the ids
    [0 .. n - 1] as global and as local ids. *)
Theorem all_arguments_missing
  (rt : Runtime) (d0 : DeviceSpec) (specs : list DeviceSpec) (t : string) :
  let n := len (d0 :: specs) in
  let mesh :=
    Build_Mesh ["x"] {| np.shape := [n]; np.data := range n |} (range n)
      (d0 :: specs) "" in
  mapM (fun d => DeviceSpec_from_string rt (name d))
    (tf_config_list_logical_devices rt "CPU") = Ok (d0 :: specs) ->
  spec_device_type d0 = Some t ->
  dtensor_Mesh_validate rt mesh = Ok tt ->
  create_mesh rt None "" None None = (None, Ok mesh).
Proof.
  intros n mesh Hparse Htype Hvalid.
  assert (Hres : resolve_devices rt None None = Ok (d0 :: specs))
    by exact Hparse.
  rewrite (create_mesh_resolved _ _ _ _ _ Hres).
  unfold fill_mesh_dims, build_mesh. simpl fst. simpl snd. simpl map.
  fold n. rewrite reshape_flat by apply len_nonneg.
  simpl. unfold dtensor_Mesh. fold mesh. rewrite Hvalid. simpl.
  unfold _print_context. now rewrite Htype.
Qed.

Lemma all_arguments_missing_witness :
  create_mesh sample_runtime None "" None None
  = (None,
     Ok (Build_Mesh ["x"] {| np.shape := [2]; np.data := [0; 1] |} [0; 1]
           [device "CPU" 0; device "CPU" 1] "")).
Proof.
  apply (@all_arguments_missing sample_runtime (device "CPU" 0)
           [device "CPU" 1] "CPU"); reflexivity.
Defined.

(** X13. With explicit devices, [device_type] is only checked against the
    first device: when the devices parse and the first has a device type,
    passing any spelling of that type, in any letter case, gives the same
    outcome as leaving [device_type] out, whatever the types of the other
    devices. *)
Theorem device_type_is_only_checked
  (rt : Runtime) (mesh_dims : option (list (string * Z)))
  (mesh_name : string) (devices : list string) (device_type : string)
  (specs : list DeviceSpec) (d0 : DeviceSpec) (inferred : string) :
  parse_devices rt devices = Ok specs ->
  item0 specs = Ok d0 ->
  spec_device_type d0 = Some inferred ->
  upper device_type = upper inferred ->
  create_mesh rt mesh_dims mesh_name (Some devices) (Some device_type)
  = create_mesh rt mesh_dims mesh_name (Some devices) None.
Proof.
  intros Hparse Hd0 Htype Hsame.
  assert (Hres : forall dt,
             dt = None \/ dt = Some device_type ->
             resolve_devices rt (Some devices) dt = Ok specs).
  { intros dt Hdt. unfold resolve_devices. rewrite Hparse. simpl.
    destruct Hdt as [-> | ->]; rewrite Hd0; simpl; rewrite Htype; simpl.
    - now rewrite String.eqb_refl.
    - now rewrite Hsame, String.eqb_refl. }
  rewrite (create_mesh_resolved _ _ _ _ _ (Hres None (or_introl eq_refl))).
  now rewrite (create_mesh_resolved _ _ _ _ _
                 (Hres (Some device_type) (or_intror eq_refl))).
Qed.

Lemma device_type_is_only_checked_witness :
  parse_devices sample_runtime ["GPU:1"; "CPU:0"]
  = Ok [device "GPU" 1; device "CPU" 0] /\
  create_mesh sample_runtime None "" (Some ["GPU:1"; "CPU:0"]) (Some "gpu")
  = create_mesh sample_runtime None "" (Some ["GPU:1"; "CPU:0"]) None.
Proof.
  split; [reflexivity|].
  apply (@device_type_is_only_checked sample_runtime None ""
           ["GPU:1"; "CPU:0"] "gpu" [device "GPU" 1; device "CPU" 0]
           (device "GPU" 1) "GPU"); reflexivity.
Defined.

(** X14. The mesh [create_mesh] returns is never empty: it has at least one
    local device, and exactly one local device id per local device. *)
Theorem single_client_mesh_not_empty
  (rt : Runtime) (mesh_dims : option (list (string * Z)))
  (mesh_name : string) (devices : option (list string))
  (device_type : option string) (mesh : Mesh) :
  snd (create_mesh rt mesh_dims mesh_name devices device_type) = Ok mesh ->
  local_devices mesh <> [] /\
  1 <= len (local_device_ids mesh) /\
  len (local_device_ids mesh) = len (local_devices mesh).
Proof.
  intros Hcall.
  apply create_mesh_returns in Hcall as (specs & g & _ & Hne & Hg & ->).
  apply reshape_inv in Hg as (Hdata & _). simpl in *.
  rewrite Hdata, len_range.
  destruct specs as [|d0 specs']; [contradiction|].
  unfold len. simpl List.length.
  split; [discriminate|]. split; lia.
Qed.

Lemma single_client_mesh_not_empty_witness :
  let mesh :=
    Build_Mesh ["x"] {| np.shape := [2]; np.data := [0; 1] |} [0; 1]
      [device "CPU" 0; device "CPU" 1] "" in
  snd (create_mesh sample_runtime None "" None None) = Ok mesh /\
  len (local_device_ids mesh) = len (local_devices mesh).
Proof.
  intros mesh. split; [reflexivity|].
  exact (proj2 (proj2 (@single_client_mesh_not_empty sample_runtime None ""
                         None None mesh eq_refl))).
Defined.

(** The reshape of [0 .. n - 1] to a single unknown dimension. *)
Lemma reshape_unknown (n d : Z) :
  0 <= n -> d < 0 ->
  np.reshape (np.arange n) [d]
  = Ok {| np.shape := [n]; np.data := range n |}.
Proof.
  intros Hn Hd. unfold np.reshape, np.fix_unknown_dimension, np.unknowns,
    np.known_size.
  simpl filter.
  destruct (Z.ltb_spec d 0); [|lia].
  destruct (Z.leb_spec 0 d); [lia|].
  simpl. rewrite Z.mod_1_r, Z.div_1_r. simpl.
  destruct (Z.ltb_spec d 0); [|lia].
  rewrite size_arange. do 3 f_equal. lia.
Qed.

(** The local [mesh_dims] of [create_mesh] is the list given, but for the
    one-dimensional list of size -1. *)
Lemma fill_mesh_dims_given (mesh_dims : list (string * Z))
  (specs : list DeviceSpec) :
  (exists dim_name,
     mesh_dims = [(dim_name, -1)] /\
     snd (fill_mesh_dims (Some mesh_dims) specs) = [(dim_name, len specs)])
  \/ snd (fill_mesh_dims (Some mesh_dims) specs) = mesh_dims.
Proof.
  destruct mesh_dims as [|[dim_name dim_size] [|d l]];
    try (right; reflexivity).
  simpl. destruct (Z.eqb_spec dim_size (-1)) as [->|Hsize].
  - left. exists dim_name. split; reflexivity.
  - right. reflexivity.
Qed.

(** X15. The two builders agree on a single client: when [create_mesh]
    returns a mesh for a [mesh_dims] list, and a CPU or GPU call of
    [create_distributed_mesh] with the same list, as many global devices as
    that mesh has local devices, one client and client id 0 returns a mesh,
    the two meshes have the same dimension names, the same grid of global
    ids and the same local ids. *)
Theorem builders_agree_on_single_client
  (rt rt' : Runtime) (mesh_dims : list (string * Z)) (name name' : string)
  (devices : option (list string)) (device_type : option string)
  (device_type' : string) (mesh mesh' : Mesh) :
  snd (create_mesh rt (Some mesh_dims) name devices device_type) = Ok mesh ->
  is_cpu_gpu device_type' ->
  create_distributed_mesh rt' mesh_dims name'
    (Some (len (local_devices mesh))) (Some 1) (Some 0) device_type'
  = Ok mesh' ->
  dim_names mesh = dim_names mesh' /\
  global_device_ids mesh = global_device_ids mesh' /\
  local_device_ids mesh = local_device_ids mesh'.
Proof.
  intros Hcall Hdt Hcall'.
  apply create_mesh_returns in Hcall as (specs & g & _ & _ & Hg & ->).
  simpl in Hcall'.
  destruct (create_distributed_mesh_returns _ _ _ _ _ _ Hdt Hcall')
    as ((Hn & _) & _ & g' & Hg' & ->).
  simpl in Hn, Hg'.
  pose proof (len_nonneg specs) as Hlen.
  assert (Hsame : map fst (snd (fill_mesh_dims (Some mesh_dims) specs))
                  = map fst mesh_dims /\ g = g').
  { destruct (fill_mesh_dims_given mesh_dims specs)
      as [(dim_name & -> & Hfill)|Hfill]; rewrite Hfill in Hg |- *.
    - simpl in Hg, Hg'.
      rewrite reshape_flat in Hg by assumption.
      rewrite reshape_unknown in Hg' by lia.
      injection Hg as <-. injection Hg' as <-. now split.
    - rewrite Hg in Hg'. injection Hg' as <-. now split. }
  destruct Hsame as [Hnames <-].
  apply reshape_inv in Hg as (Hdata & _). simpl in Hdata.
  unfold client_mesh. cbn [dim_names global_device_ids local_device_ids
                             if_none].
  rewrite Hnames, Hdata, Z.div_1_r, Z.mul_0_r.
  rewrite py_slice_range by lia. now rewrite range_from_0.
Qed.

Lemma builders_agree_on_single_client_witness :
  let mesh :=
    Build_Mesh ["x"; "y"] {| np.shape := [2; 1]; np.data := [0; 1] |}
      [0; 1] [device "CPU" 0; device "CPU" 1] "" in
  snd (create_mesh sample_runtime (Some [("x", 2); ("y", 1)]) "" None None)
  = Ok mesh /\
  create_distributed_mesh sample_runtime [("x", 2); ("y", 1)] "" (Some 2)
    (Some 1) (Some 0) "CPU" = Ok mesh /\
  local_device_ids mesh = local_device_ids mesh.
Proof.
  intros mesh. split; [reflexivity|]. split; [reflexivity|].
  exact (proj2 (proj2 (@builders_agree_on_single_client sample_runtime
                         sample_runtime [("x", 2); ("y", 1)] "" "" None None
                         "CPU" mesh mesh eq_refl eq_refl eq_refl))).
Defined.

(** X16. The overwrite of a single dimension of size -1 survives a failure
    of the call: when [devices] is left out and no logical device of the
    type is available, [create_mesh] returns no mesh, yet it leaves the
    caller's list holding the dimension with size 0. *)
Theorem mesh_dims_overwritten_before_failure
  (rt : Runtime) (dim_name mesh_name : string) (device_type : option string) :
  tf_config_list_logical_devices rt
    match device_type with None => "CPU" | Some t => t end = [] ->
  let call :=
    create_mesh rt (Some [(dim_name, -1)]) mesh_name None device_type in
  fst call = Some [(dim_name, 0)] /\ ~ returns (snd call).
Proof.
  intros Hnone. cbv zeta.
  assert (Hres : resolve_devices rt None device_type = Ok []).
  { unfold resolve_devices. now rewrite Hnone. }
  rewrite (create_mesh_resolved _ _ _ _ _ Hres). simpl fst. simpl snd.
  split; [reflexivity|].
  rewrite build_mesh_no_devices. intros [mesh Hmesh].
  destruct (np.reshape _ _) as [g|err]; [|discriminate].
  simpl in Hmesh.
  destruct (dtensor_Mesh_validate rt _) as [[]|err]; discriminate.
Qed.

Lemma mesh_dims_overwritten_before_failure_witness :
  create_mesh bare_runtime (Some [("x", -1)]) "" None (Some "GPU")
  = (Some [("x", 0)], Raise IndexError).
Proof.
  destruct (@mesh_dims_overwritten_before_failure bare_runtime "x" ""
              (Some "GPU") eq_refl) as [Hfst _].
  rewrite (surjective_pairing (create_mesh _ _ _ _ _)), Hfst.
  reflexivity.
Defined.

(** * Dimension sizes that do not match the devices *)

(** Given sizes whose product is not the size of the array are refused. *)
Lemma reshape_mismatch (a : np.ndarray) (s : list Z) :
  np.unknowns s = O -> np.prod s <> np.size a ->
  np.reshape a s = Raise (ValueError (Cannot_reshape (np.size a) s)).
Proof.
  intros Hu Hp. unfold np.reshape, np.fix_unknown_dimension.
  rewrite Hu, known_size_all by assumption.
  destruct (Z.eqb_spec (np.size a) (np.prod s)) as [E|E]; [|reflexivity].
  now destruct Hp.
Qed.

(** X17. [mesh_dims] and the devices must match each other: when the
    devices of a [create_mesh] call resolve and the sizes of [mesh_dims],
    none negative, do not multiply to the number of devices, the call ends
    with the [ValueError] of the reshape of line 88 and leaves the list as
    it was. *)
Theorem create_mesh_dims_must_match_devices
  (rt : Runtime) (mesh_dims : list (string * Z)) (mesh_name : string)
  (devices : option (list string)) (device_type : option string)
  (specs : list DeviceSpec) :
  resolve_devices rt devices device_type = Ok specs ->
  Forall (fun d => 0 <= snd d) mesh_dims ->
  np.prod (map snd mesh_dims) <> len specs ->
  create_mesh rt (Some mesh_dims) mesh_name devices device_type
  = (Some mesh_dims,
     Raise (ValueError (Cannot_reshape (len specs) (map snd mesh_dims)))).
Proof.
  intros Hres Hsizes Hprod.
  rewrite (create_mesh_resolved _ _ _ _ _ Hres).
  assert (Hfill : fill_mesh_dims (Some mesh_dims) specs
                  = (Some mesh_dims, mesh_dims)).
  { destruct mesh_dims as [|[dim_name dim_size] [|d l]]; try reflexivity.
    simpl. apply Forall_inv in Hsizes. simpl in Hsizes.
    destruct (Z.eqb_spec dim_size (-1)); [lia|reflexivity]. }
  rewrite Hfill. simpl fst. simpl snd. f_equal.
  unfold build_mesh. rewrite reshape_mismatch.
  - simpl. rewrite size_arange. do 3 f_equal. unfold len. lia.
  - apply unknowns_nonneg. now rewrite Forall_map.
  - rewrite size_arange. unfold len in *. lia.
Qed.

Lemma create_mesh_dims_must_match_devices_witness :
  create_mesh sample_runtime (Some [("x", 2); ("y", 2)]) ""
    (Some ["CPU:0"; "CPU:1"]) None
  = (Some [("x", 2); ("y", 2)],
     Raise (ValueError (Cannot_reshape 2 [2; 2]))).
Proof.
  apply (@create_mesh_dims_must_match_devices sample_runtime
           [("x", 2); ("y", 2)] "" (Some ["CPU:0"; "CPU:1"]) None
           [device "CPU" 0; device "CPU" 1]).
  - reflexivity.
  - repeat constructor; easy.
  - easy.
Defined.

(** X18. In a CPU or GPU call of [create_distributed_mesh] that passes the
    checks on its coordinates and on the available devices, sizes of
    [mesh_dims], none negative, that do not multiply to the global device
    count end the call with the [ValueError] of the reshape of line 173. *)
Theorem distributed_dims_must_match_devices
  (rt : Runtime) (mesh_dims : list (string * Z)) (mesh_name : string)
  (num_global_devices num_clients client_id : option Z)
  (device_type : string) :
  is_cpu_gpu device_type ->
  let n :=
    if_none num_global_devices (dtensor_num_global_devices rt device_type) in
  let c := if_none num_clients (dtensor_num_clients rt) in
  let i := if_none client_id (dtensor_client_id rt) in
  coordinates_ok n c i ->
  n / c <= dtensor_num_local_devices rt device_type ->
  Forall (fun d => 0 <= snd d) mesh_dims ->
  np.prod (map snd mesh_dims) <> n ->
  create_distributed_mesh rt mesh_dims mesh_name num_global_devices
    num_clients client_id device_type
  = Raise (ValueError (Cannot_reshape n (map snd mesh_dims))).
Proof.
  intros Hdt n c i Hok Havail Hsizes Hprod.
  rewrite (create_distributed_mesh_checked _ _ _ _ _ _ Hdt Hok).
  fold n c i. rewrite Z.gtb_ltb.
  destruct (Z.ltb_spec (dtensor_num_local_devices rt device_type) (n / c));
    [lia|].
  destruct Hok as (Hn & _).
  rewrite reshape_mismatch.
  - simpl. rewrite size_arange. do 3 f_equal. lia.
  - apply unknowns_nonneg. now rewrite Forall_map.
  - rewrite size_arange. lia.
Qed.

Lemma distributed_dims_must_match_devices_witness :
  create_distributed_mesh sample_runtime [("x", 3)] "" None None None "CPU"
  = Raise (ValueError (Cannot_reshape 4 [3])).
Proof.
  apply (@distributed_dims_must_match_devices sample_runtime [("x", 3)] ""
           None None None "CPU" eq_refl).
  - unfold coordinates_ok. repeat split; easy.
  - easy.
  - repeat constructor; easy.
  - easy.
Defined.
